(** * AudioStreamBuilder: stream acquisition with MMAP / legacy fallback

    A shallow embedding of
    [media/libaaudio/src/core/AudioStreamBuilder.cpp]:
    the policy reduction [getAAudioPolicy], the pre-check [validate], the
    stream factory [builder_createStream] and the orchestrating
    [AudioStreamBuilder::build].

    [build] is a sequence of guarded steps with early [return]s that mutates
    the builder object ([this]), writes the caller's output slot
    ([*streamPtr]) and calls external collaborators.  It is modelled in a
    small state monad with an early-return outcome; the state carries the
    builder, the output slot and the trace of external calls. *)

From Stdlib Require Import String.
From Stdlib Require Import ZArith List Bool Lia Permutation.
Import ListNotations.
Local Open Scope Z_scope.

(** ** Integer codes of the public headers *)

(** Modelled from the spec: the enumerations used by the source are declared
    in [aaudio/AAudio.h], [aaudio/AAudioTesting.h], [utils/Errors.h] and
    [core/AudioStreamBuilder.h], which are not among the sources; the design
    document names their members (result codes, dispositions, directions,
    sharing and performance modes, presets, privacy requests).  They are
    32-bit signed integers, modelled as [Z] with the values of the NDK
    headers; the proofs use the values only to tell the members of one
    enumeration apart. *)

Definition aaudio_result_t := Z.
Definition aaudio_policy_t := Z.
Definition aaudio_direction_t := Z.
Definition aaudio_sharing_mode_t := Z.
Definition aaudio_performance_mode_t := Z.
Definition aaudio_session_id_t := Z.
Definition aaudio_input_preset_t := Z.
Definition status_t := Z.

Definition AAUDIO_OK : aaudio_result_t := 0.
Definition AAUDIO_ERROR_ILLEGAL_ARGUMENT : aaudio_result_t := -898.
Definition AAUDIO_ERROR_NULL : aaudio_result_t := -886.
Definition AAUDIO_ERROR_OUT_OF_RANGE : aaudio_result_t := -882.

Definition NO_ERROR : status_t := 0.

Definition AAUDIO_UNSPECIFIED : Z := 0.

Definition AAUDIO_POLICY_NEVER : aaudio_policy_t := 1.
Definition AAUDIO_POLICY_AUTO : aaudio_policy_t := 2.
Definition AAUDIO_POLICY_ALWAYS : aaudio_policy_t := 3.

Definition AAUDIO_DIRECTION_OUTPUT : aaudio_direction_t := 0.
Definition AAUDIO_DIRECTION_INPUT : aaudio_direction_t := 1.

Definition AAUDIO_SHARING_MODE_EXCLUSIVE : aaudio_sharing_mode_t := 0.
Definition AAUDIO_SHARING_MODE_SHARED : aaudio_sharing_mode_t := 1.

Definition AAUDIO_PERFORMANCE_MODE_NONE : aaudio_performance_mode_t := 10.
Definition AAUDIO_PERFORMANCE_MODE_POWER_SAVING : aaudio_performance_mode_t := 11.
Definition AAUDIO_PERFORMANCE_MODE_LOW_LATENCY : aaudio_performance_mode_t := 12.

Definition AAUDIO_SESSION_ID_NONE : aaudio_session_id_t := -1.

Definition AAUDIO_INPUT_PRESET_GENERIC : aaudio_input_preset_t := 1.
Definition AAUDIO_INPUT_PRESET_CAMCORDER : aaudio_input_preset_t := 5.
Definition AAUDIO_INPUT_PRESET_VOICE_COMMUNICATION : aaudio_input_preset_t := 7.

Definition PRIVACY_SENSITIVE_DEFAULT : Z := -1.
Definition PRIVACY_SENSITIVE_DISABLED : Z := 0.
Definition PRIVACY_SENSITIVE_ENABLED : Z := 1.

(** Macros of the source file itself. *)

Definition AAUDIO_MMAP_POLICY_DEFAULT : aaudio_policy_t := AAUDIO_POLICY_NEVER.
Definition AAUDIO_MMAP_EXCLUSIVE_POLICY_DEFAULT : aaudio_policy_t := AAUDIO_POLICY_NEVER.

Definition FRAMES_PER_DATA_CALLBACK_MIN : Z := 1.
Definition FRAMES_PER_DATA_CALLBACK_MAX : Z := 1024 * 1024.

(** ** AIDL policy types *)

(** [enum class AudioMMapPolicy]: the disposition carried by a policy entry. *)
Inductive AudioMMapPolicy : Type :=
| UNSPECIFIED
| NEVER
| AUTO
| ALWAYS.

Definition AudioMMapPolicy_eqb (a b : AudioMMapPolicy) : bool :=
  match a, b with
  | UNSPECIFIED, UNSPECIFIED | NEVER, NEVER | AUTO, AUTO | ALWAYS, ALWAYS => true
  | _, _ => false
  end.

(** [enum class AudioMMapPolicyType]: the two policy axes. *)
Inductive AudioMMapPolicyType : Type :=
| DEFAULT
| EXCLUSIVE.

(** [AudioMMapPolicyInfo]: one entry per device. *)
Record AudioMMapPolicyInfo : Type := mkPolicyInfo {
  device : Z;
  mmapPolicy : AudioMMapPolicy
}.

(** ** Policy reduction *)

(** The [default:] label of the [switch] shares the [UNSPECIFIED] case. *)
Definition aidl2legacy_aaudio_policy (aidl : AudioMMapPolicy) : aaudio_policy_t :=
  match aidl with
  | NEVER => AAUDIO_POLICY_NEVER
  | AUTO => AAUDIO_POLICY_AUTO
  | ALWAYS => AAUDIO_POLICY_ALWAYS
  | UNSPECIFIED => AAUDIO_UNSPECIFIED
  end.

(** The loop [for (i = 1; i < size; ++i)] of [getAAudioPolicy]: scans the
    entries after the first and reports whether one of them differs from
    the policy of entry 0. *)
Fixpoint differsFromFirst (first : AudioMMapPolicy) (rest : list AudioMMapPolicyInfo) : bool :=
  match rest with
  | [] => false
  | info :: rest' =>
      if negb (AudioMMapPolicy_eqb (mmapPolicy info) first) then true
      else differsFromFirst first rest'
  end.

Definition getAAudioPolicy (policyInfos : list AudioMMapPolicyInfo) : aaudio_policy_t :=
  match policyInfos with
  | [] => AAUDIO_POLICY_AUTO
  | info0 :: rest =>
      if differsFromFirst (mmapPolicy info0) rest then AAUDIO_POLICY_AUTO
      else aidl2legacy_aaudio_policy (mmapPolicy info0)
  end.

(** ** Streams and the builder object *)

(** The four concrete stream classes instantiated by [builder_createStream]. *)
Inductive StreamClass : Type :=
| AudioStreamInternalCapture
| AudioStreamRecord
| AudioStreamInternalPlay
| AudioStreamTrack.

Record AudioStream : Type := mkStream {
  streamClass : StreamClass
}.

(** Modelled from the spec: the virtual [AudioStream::isMMap()] lives in the
    stream classes, which are not part of this file; the fast-path (internal)
    variants answer [true], the compatibility (legacy) variants [false]. *)
Definition isMMap (stream : AudioStream) : bool :=
  match streamClass stream with
  | AudioStreamInternalCapture | AudioStreamInternalPlay => true
  | AudioStreamRecord | AudioStreamTrack => false
  end.

(** The fields of [AudioStreamBuilder] (and of its base
    [AAudioStreamParameters]) that [validate] and [build] read or write. *)
Record AudioStreamBuilder : Type := mkBuilder {
  mDirection : aaudio_direction_t;
  mSharingMode : aaudio_sharing_mode_t;
  mPerformanceMode : aaudio_performance_mode_t;
  mSessionId : aaudio_session_id_t;
  mInputPreset : aaudio_input_preset_t;
  mIsPrivacySensitive : bool;
  mPrivacySensitiveReq : Z;
  mFramesPerDataCallback : Z
}.

Definition setSharingMode (sharingMode : aaudio_sharing_mode_t) (b : AudioStreamBuilder)
  : AudioStreamBuilder :=
  mkBuilder (mDirection b) sharingMode (mPerformanceMode b) (mSessionId b)
            (mInputPreset b) (mIsPrivacySensitive b) (mPrivacySensitiveReq b)
            (mFramesPerDataCallback b).

Definition setPrivacySensitive (privacySensitive : bool) (b : AudioStreamBuilder)
  : AudioStreamBuilder :=
  mkBuilder (mDirection b) (mSharingMode b) (mPerformanceMode b) (mSessionId b)
            (mInputPreset b) privacySensitive (mPrivacySensitiveReq b)
            (mFramesPerDataCallback b).

(** ** External collaborators *)

(** What [build] consults outside this file: the process-wide override
    [AudioGlobal_getMMapPolicy()], the provider query
    [AudioSystem::getMmapPolicyInfo(type, &infos)] (a status and the entries
    it stored), the delegated parameter check
    [AAudioStreamParameters::validate()] and [AudioStream::open(builder)] of
    each stream class. *)
Record Env : Type := mkEnv {
  AudioGlobal_getMMapPolicy : aaudio_policy_t;
  getMmapPolicyInfo : AudioMMapPolicyType -> status_t * list AudioMMapPolicyInfo;
  AAudioStreamParameters_validate : AudioStreamBuilder -> aaudio_result_t;
  AudioStream_open : StreamClass -> AudioStreamBuilder -> aaudio_result_t
}.

(** Calls that leave this file. *)
Inductive Event : Type :=
| EvGetMmapPolicyInfo (policyType : AudioMMapPolicyType)
| EvNew (c : StreamClass)
| EvOpen (c : StreamClass)
| EvRegisterPlayerBase (c : StreamClass)
| EvLogOpenActual (c : StreamClass)
| EvIncStrong (c : StreamClass).

(** ** The state monad with early return *)

(** [this] is the builder object; [streamPtr] is the argument of [build]:
    [None] is a null [AudioStream**], [Some slot] points to the caller's slot,
    whose content is [None] for [nullptr].  [trace] lists the calls made so
    far, the most recent first. *)
Record State : Type := mkState {
  this : AudioStreamBuilder;
  streamPtr : option (option AudioStream);
  trace : list Event
}.

(** [Next a]: the statement completed with value [a]; [Returned r]: the
    function executed [return r]; [Fault]: a null smart pointer was
    dereferenced. *)
Inductive Flow (A : Type) : Type :=
| Next (a : A)
| Returned (r : aaudio_result_t)
| Fault.
Arguments Next {A} a.
Arguments Returned {A} r.
Arguments Fault {A}.

Definition M (A : Type) : Type := State -> Flow A * State.

Definition ret {A} (a : A) : M A := fun s => (Next a, s).

Definition bind {A B} (m : M A) (k : A -> M B) : M B :=
  fun s =>
    match m s with
    | (Next a, s') => k a s'
    | (Returned r, s') => (Returned r, s')
    | (Fault, s') => (Fault, s')
    end.

Definition returning {A} (r : aaudio_result_t) : M A := fun s => (Returned r, s).

Definition fault {A} : M A := fun s => (Fault, s).

Notation "x <- m ;; k" := (bind m (fun x => k))
  (at level 61, m at next level, right associativity).
Notation "m ;;; k" := (bind m (fun _ => k))
  (at level 61, right associativity).

(** [if (c) return r;] *)
Definition returnIf (c : bool) (r : aaudio_result_t) : M unit :=
  if c then returning r else ret tt.

Definition getThis : M AudioStreamBuilder := fun s => (Next (this s), s).

Definition getStreamPtr : M (option (option AudioStream)) :=
  fun s => (Next (streamPtr s), s).

Definition modifyThis (f : AudioStreamBuilder -> AudioStreamBuilder) : M unit :=
  fun s => (Next tt, mkState (f (this s)) (streamPtr s) (trace s)).

Definition emit (e : Event) : M unit :=
  fun s => (Next tt, mkState (this s) (streamPtr s) (e :: trace s)).

(** [*streamPtr = v], used only after the null check. *)
Definition storeStreamPtr (v : option AudioStream) : M unit :=
  fun s => (Next tt, mkState (this s) (Some v) (trace s)).

Definition outcome {A} (m : M A) (s : State) : Flow A := fst (m s).
Definition finalState {A} (m : M A) (s : State) : State := snd (m s).

(** ** The stream factory *)

(** [stream = new C(...)]: constructs an object of class [c]. *)
Definition newStream (c : StreamClass) : M AudioStream :=
  emit (EvNew c) ;;; ret (mkStream c).

(** [builder_createStream]: the [sharingMode] parameter is unnamed and unused
    in the source.  [stream] is the reference parameter; the pair returned is
    the result code and the value of [stream] on exit. *)
Definition builder_createStream (direction : aaudio_direction_t)
    (_sharingMode : aaudio_sharing_mode_t) (tryMMap : bool)
    (stream : option AudioStream) : M (aaudio_result_t * option AudioStream) :=
  let result := AAUDIO_OK in
  if direction =? AAUDIO_DIRECTION_INPUT then
    (if tryMMap then
       obj <- newStream AudioStreamInternalCapture ;; ret (result, Some obj)
     else
       obj <- newStream AudioStreamRecord ;; ret (result, Some obj))
  else if direction =? AAUDIO_DIRECTION_OUTPUT then
    (if tryMMap then
       obj <- newStream AudioStreamInternalPlay ;; ret (result, Some obj)
     else
       obj <- newStream AudioStreamTrack ;; ret (result, Some obj))
  else
    ret (AAUDIO_ERROR_ILLEGAL_ARGUMENT, stream).

(** ** The pre-check *)

Section WithEnv.

Variable env : Env.

(** [AudioStreamBuilder::validate() const]. *)
Definition validate (b : AudioStreamBuilder) : aaudio_result_t :=
  let result := AAudioStreamParameters_validate env b in
  if negb (result =? AAUDIO_OK) then result
  else
    if negb ((mPerformanceMode b =? AAUDIO_PERFORMANCE_MODE_NONE)
             || (mPerformanceMode b =? AAUDIO_PERFORMANCE_MODE_POWER_SAVING)
             || (mPerformanceMode b =? AAUDIO_PERFORMANCE_MODE_LOW_LATENCY))
    then AAUDIO_ERROR_ILLEGAL_ARGUMENT
    else
      if negb (mFramesPerDataCallback b =? AAUDIO_UNSPECIFIED)
         && ((mFramesPerDataCallback b <? FRAMES_PER_DATA_CALLBACK_MIN)
             || (mFramesPerDataCallback b >? FRAMES_PER_DATA_CALLBACK_MAX))
      then AAUDIO_ERROR_OUT_OF_RANGE
      else AAUDIO_OK.

(** ** Calls to the collaborators *)

Definition call_getMmapPolicyInfo (policyType : AudioMMapPolicyType)
  : M (status_t * list AudioMMapPolicyInfo) :=
  emit (EvGetMmapPolicyInfo policyType) ;;; ret (getMmapPolicyInfo env policyType).

(** [audioStream->open] applied to the builder, which is passed by const
    reference. *)
Definition open (audioStream : option AudioStream) : M aaudio_result_t :=
  match audioStream with
  | None => fault
  | Some stream =>
      emit (EvOpen (streamClass stream)) ;;;
      b <- getThis ;;
      ret (AudioStream_open env (streamClass stream) b)
  end.

Definition registerPlayerBase (audioStream : option AudioStream) : M unit :=
  match audioStream with
  | None => fault
  | Some stream => emit (EvRegisterPlayerBase (streamClass stream))
  end.

Definition logOpenActual (audioStream : option AudioStream) : M unit :=
  match audioStream with
  | None => fault
  | Some stream => emit (EvLogOpenActual (streamClass stream))
  end.

(** [startUsingStream]: takes one more strong reference for the C caller and
    hands out the raw pointer. *)
Definition startUsingStream (audioStream : option AudioStream) : M (option AudioStream) :=
  match audioStream with
  | None => fault
  | Some stream => emit (EvIncStrong (streamClass stream)) ;;; ret (Some stream)
  end.

(** ** [AudioStreamBuilder::build], step by step *)

(** Lines 134-145: the null check on [streamPtr], the reset of the caller's
    slot and the pre-check.  [logParameters()] only writes to the log. *)
Definition build_precheck : M unit :=
  ptr <- getStreamPtr ;;
  match ptr with
  | None => returning AAUDIO_ERROR_NULL
  | Some _ =>
      storeStreamPtr None ;;;
      b <- getThis ;;
      let result := validate b in
      returnIf (negb (result =? AAUDIO_OK)) result
  end.

(** Lines 147-158: the general MMAP policy.  [&&] short-circuits, so the
    provider is queried only when the process-wide setting is unspecified. *)
Definition build_mmapPolicy : M aaudio_policy_t :=
  let mmapPolicy := AudioGlobal_getMMapPolicy env in
  mmapPolicy <-
    (if mmapPolicy =? AAUDIO_UNSPECIFIED then
       q <- call_getMmapPolicyInfo DEFAULT ;;
       if fst q =? NO_ERROR then ret (getAAudioPolicy (snd q)) else ret mmapPolicy
     else ret mmapPolicy) ;;
  ret (if mmapPolicy =? AAUDIO_UNSPECIFIED then AAUDIO_MMAP_POLICY_DEFAULT else mmapPolicy).

(** Lines 160-168: the vector is cleared, the exclusive MMAP policy starts
    from [AAUDIO_UNSPECIFIED] and the provider is always queried. *)
Definition build_mmapExclusivePolicy : M aaudio_policy_t :=
  let mmapExclusivePolicy := AAUDIO_UNSPECIFIED in
  q <- call_getMmapPolicyInfo EXCLUSIVE ;;
  let mmapExclusivePolicy :=
    if fst q =? NO_ERROR then getAAudioPolicy (snd q) else mmapExclusivePolicy in
  ret (if mmapExclusivePolicy =? AAUDIO_UNSPECIFIED
       then AAUDIO_MMAP_EXCLUSIVE_POLICY_DEFAULT else mmapExclusivePolicy).

(** Lines 170-176: the local [sharingMode], written back with
    [setSharingMode] when it is corrected. *)
Definition build_sharingMode (mmapExclusivePolicy : aaudio_policy_t)
  : M aaudio_sharing_mode_t :=
  b <- getThis ;;
  let sharingMode := mSharingMode b in
  if (sharingMode =? AAUDIO_SHARING_MODE_EXCLUSIVE)
     && (mmapExclusivePolicy =? AAUDIO_POLICY_NEVER)
  then
    let sharingMode := AAUDIO_SHARING_MODE_SHARED in
    modifyThis (setSharingMode sharingMode) ;;; ret sharingMode
  else ret sharingMode.

(** Lines 178-198: the locals [allowMMap] and [allowLegacy], returned as a
    pair in that order. *)
Definition build_allowPaths (mmapPolicy : aaudio_policy_t) : M (bool * bool) :=
  let allowMMap := negb (mmapPolicy =? AAUDIO_POLICY_NEVER) in
  let allowLegacy := negb (mmapPolicy =? AAUDIO_POLICY_ALWAYS) in
  b <- getThis ;;
  let allowMMap :=
    if negb (mPerformanceMode b =? AAUDIO_PERFORMANCE_MODE_LOW_LATENCY)
    then false else allowMMap in
  let allowMMap :=
    if negb (mSessionId b =? AAUDIO_SESSION_ID_NONE) then false else allowMMap in
  returnIf (negb allowMMap && negb allowLegacy) AAUDIO_ERROR_ILLEGAL_ARGUMENT ;;;
  ret (allowMMap, allowLegacy).

(** Lines 200-211. *)
Definition build_privacySensitive : M unit :=
  modifyThis (setPrivacySensitive false) ;;;
  b <- getThis ;;
  if mPrivacySensitiveReq b =? PRIVACY_SENSITIVE_DEFAULT then
    let preset := mInputPreset b in
    if (preset =? AAUDIO_INPUT_PRESET_CAMCORDER)
       || (preset =? AAUDIO_INPUT_PRESET_VOICE_COMMUNICATION)
    then modifyThis (setPrivacySensitive true)
    else ret tt
  else if mPrivacySensitiveReq b =? PRIVACY_SENSITIVE_ENABLED then
    modifyThis (setPrivacySensitive true)
  else ret tt.

(** Lines 213-237: creation, open, the single fallback and the hand-off. *)
Definition build_openStream (sharingMode : aaudio_sharing_mode_t)
    (allowMMap allowLegacy : bool) : M aaudio_result_t :=
  b <- getThis ;;
  created <- builder_createStream (mDirection b) sharingMode allowMMap None ;;
  let result := fst created in
  let audioStream := snd created in
  if result =? AAUDIO_OK then
    result <- open audioStream ;;
    retried <-
      (if negb (result =? AAUDIO_OK) then
         match audioStream with
         | None => fault
         | Some stream =>
             let isMMap := isMMap stream in
             if isMMap && allowLegacy then
               b <- getThis ;;
               created <- builder_createStream (mDirection b) sharingMode false audioStream ;;
               let result := fst created in
               let audioStream := snd created in
               if result =? AAUDIO_OK then
                 result <- open audioStream ;; ret (result, audioStream)
               else ret (result, audioStream)
             else ret (result, audioStream)
         end
       else ret (result, audioStream)) ;;
    let result := fst retried in
    let audioStream := snd retried in
    (if result =? AAUDIO_OK then
       registerPlayerBase audioStream ;;;
       logOpenActual audioStream ;;;
       handle <- startUsingStream audioStream ;;
       storeStreamPtr handle
     else ret tt) ;;;
    returning result
  else returning result.

(** Lines 134-198: everything before the privacy step.  It yields the locals
    [sharingMode], [allowMMap] and [allowLegacy], or returns early. *)
Definition build_decide : M (aaudio_sharing_mode_t * bool * bool) :=
  build_precheck ;;;
  mmapPolicy <- build_mmapPolicy ;;
  mmapExclusivePolicy <- build_mmapExclusivePolicy ;;
  sharingMode <- build_sharingMode mmapExclusivePolicy ;;
  allow <- build_allowPaths mmapPolicy ;;
  ret (sharingMode, fst allow, snd allow).

Definition build : M aaudio_result_t :=
  d <- build_decide ;;
  build_privacySensitive ;;;
  build_openStream (fst (fst d)) (snd (fst d)) (snd d).

End WithEnv.

(** The result code and the state the caller observes after [build]. *)
Definition buildResult (env : Env) (s : State) : option aaudio_result_t :=
  match outcome (build env) s with
  | Next r | Returned r => Some r
  | Fault => None
  end.

Definition buildState (env : Env) (s : State) : State := finalState (build env) s.

(** The state in which [build] is entered: builder [b], argument
    [streamPtr], no call made yet. *)
Definition enter (b : AudioStreamBuilder) (ptr : option (option AudioStream)) : State :=
  mkState b ptr [].

(** The calls [build] made, in program order. *)
Definition calls (env : Env) (b : AudioStreamBuilder) (ptr : option (option AudioStream))
  : list Event :=
  rev (trace (buildState env (enter b ptr))).

(** The creation and open calls among a list of calls. *)
Definition isCreateOrOpen (e : Event) : bool :=
  match e with
  | EvNew _ | EvOpen _ => true
  | _ => false
  end.

Definition streamCalls (t : list Event) : list Event := filter isCreateOrOpen t.

(** The class of the first stream constructed, if any. *)
Fixpoint firstCreated (t : list Event) : option StreamClass :=
  match t with
  | [] => None
  | EvNew c :: _ => Some c
  | _ :: t' => firstCreated t'
  end.

(** ** The specification's reading of the steps

    Pure functions that follow the wording of the design document; the
    theorems below compare the code with them. *)

(** Provider answer for one axis: a failed query counts as unspecified. *)
Definition providerPolicy (q : status_t * list AudioMMapPolicyInfo) : aaudio_policy_t :=
  if fst q =? NO_ERROR then getAAudioPolicy (snd q) else AAUDIO_UNSPECIFIED.

(** Precedence "first non-unspecified wins": explicit override, provider
    reduction, hard default never. *)
Definition resolvePolicy_spec (explicitOverride : aaudio_policy_t)
    (q : status_t * list AudioMMapPolicyInfo) : aaudio_policy_t :=
  if negb (explicitOverride =? AAUDIO_UNSPECIFIED) then explicitOverride
  else if negb (providerPolicy q =? AAUDIO_UNSPECIFIED) then providerPolicy q
  else AAUDIO_POLICY_NEVER.

(** Decision engine, steps 2 to 4. *)
Definition allowFastPath_spec (generalPolicy : aaudio_policy_t)
    (performanceMode : aaudio_performance_mode_t) (sessionId : aaudio_session_id_t) : bool :=
  negb (generalPolicy =? AAUDIO_POLICY_NEVER)
  && (performanceMode =? AAUDIO_PERFORMANCE_MODE_LOW_LATENCY)
  && (sessionId =? AAUDIO_SESSION_ID_NONE).

Definition allowCompatPath_spec (generalPolicy : aaudio_policy_t) : bool :=
  negb (generalPolicy =? AAUDIO_POLICY_ALWAYS).

(** Decision engine, step 1. *)
Definition effectiveSharingMode_spec (exclusivePolicy : aaudio_policy_t)
    (sharingMode : aaudio_sharing_mode_t) : aaudio_sharing_mode_t :=
  if (sharingMode =? AAUDIO_SHARING_MODE_EXCLUSIVE)
     && (exclusivePolicy =? AAUDIO_POLICY_NEVER)
  then AAUDIO_SHARING_MODE_SHARED else sharingMode.

(** Privacy inferencer as the design document words it: the preset counts
    only for a capture request. *)
Definition inferPrivacy_spec (direction : aaudio_direction_t) (privacyReq : Z)
    (preset : aaudio_input_preset_t) : bool :=
  if privacyReq =? PRIVACY_SENSITIVE_ENABLED then true
  else if privacyReq =? PRIVACY_SENSITIVE_DEFAULT then
    (direction =? AAUDIO_DIRECTION_INPUT)
    && ((preset =? AAUDIO_INPUT_PRESET_CAMCORDER)
        || (preset =? AAUDIO_INPUT_PRESET_VOICE_COMMUNICATION))
  else false.

(** The flag as a function of the privacy request and the input preset
    alone. *)
Definition privacyFromRequest (privacyReq : Z) (preset : aaudio_input_preset_t) : bool :=
  if privacyReq =? PRIVACY_SENSITIVE_DEFAULT then
    (preset =? AAUDIO_INPUT_PRESET_CAMCORDER)
    || (preset =? AAUDIO_INPUT_PRESET_VOICE_COMMUNICATION)
  else privacyReq =? PRIVACY_SENSITIVE_ENABLED.

(** Stream factory dispatch table. *)
Definition createStream_spec (direction : aaudio_direction_t) (fastPath : bool)
  : option StreamClass :=
  if direction =? AAUDIO_DIRECTION_INPUT then
    Some (if fastPath then AudioStreamInternalCapture else AudioStreamRecord)
  else if direction =? AAUDIO_DIRECTION_OUTPUT then
    Some (if fastPath then AudioStreamInternalPlay else AudioStreamTrack)
  else None.

(** ** Sample environments and requests *)

Definition AAUDIO_ERROR_UNAVAILABLE : aaudio_result_t := -889.
Definition DEAD_OBJECT : status_t := -32.

Definition providerDown (_ : AudioMMapPolicyType) : status_t * list AudioMMapPolicyInfo :=
  (DEAD_OBJECT, []).

Definition providerUp (policyType : AudioMMapPolicyType)
  : status_t * list AudioMMapPolicyInfo :=
  match policyType with
  | DEFAULT => (NO_ERROR, [mkPolicyInfo 2 AUTO; mkPolicyInfo 3 AUTO])
  | EXCLUSIVE => (NO_ERROR, [mkPolicyInfo 2 NEVER])
  end.

Definition paramsOk (_ : AudioStreamBuilder) : aaudio_result_t := AAUDIO_OK.

Definition openOk (_ : StreamClass) (_ : AudioStreamBuilder) : aaudio_result_t := AAUDIO_OK.

Definition openMMapFails (c : StreamClass) (_ : AudioStreamBuilder) : aaudio_result_t :=
  if isMMap (mkStream c) then AAUDIO_ERROR_UNAVAILABLE else AAUDIO_OK.

Definition openFails (_ : StreamClass) (_ : AudioStreamBuilder) : aaudio_result_t :=
  AAUDIO_ERROR_UNAVAILABLE.

(** Override set by the process, provider unreachable. *)
Definition envOverride (policy : aaudio_policy_t)
    (openFn : StreamClass -> AudioStreamBuilder -> aaudio_result_t) : Env :=
  mkEnv policy providerDown paramsOk openFn.

(** No override, provider answering. *)
Definition envProvider (openFn : StreamClass -> AudioStreamBuilder -> aaudio_result_t) : Env :=
  mkEnv AAUDIO_UNSPECIFIED providerUp paramsOk openFn.

(** A low-latency exclusive playback request with the voice-communication
    preset and no explicit privacy choice. *)
Definition playbackRequest : AudioStreamBuilder :=
  mkBuilder AAUDIO_DIRECTION_OUTPUT AAUDIO_SHARING_MODE_EXCLUSIVE
            AAUDIO_PERFORMANCE_MODE_LOW_LATENCY AAUDIO_SESSION_ID_NONE
            AAUDIO_INPUT_PRESET_VOICE_COMMUNICATION false
            PRIVACY_SENSITIVE_DEFAULT AAUDIO_UNSPECIFIED.

(** The same request for capture. *)
Definition captureRequest : AudioStreamBuilder :=
  mkBuilder AAUDIO_DIRECTION_INPUT AAUDIO_SHARING_MODE_EXCLUSIVE
            AAUDIO_PERFORMANCE_MODE_LOW_LATENCY AAUDIO_SESSION_ID_NONE
            AAUDIO_INPUT_PRESET_VOICE_COMMUNICATION false
            PRIVACY_SENSITIVE_DEFAULT AAUDIO_UNSPECIFIED.

(** An exclusive playback request without a performance mode preference. *)
Definition plainRequest : AudioStreamBuilder :=
  mkBuilder AAUDIO_DIRECTION_OUTPUT AAUDIO_SHARING_MODE_EXCLUSIVE
            AAUDIO_PERFORMANCE_MODE_NONE AAUDIO_SESSION_ID_NONE
            AAUDIO_INPUT_PRESET_GENERIC true
            PRIVACY_SENSITIVE_DISABLED AAUDIO_UNSPECIFIED.

(** A request with an unknown performance mode and a negative callback
    size. *)
Definition badRequest : AudioStreamBuilder :=
  mkBuilder AAUDIO_DIRECTION_OUTPUT AAUDIO_SHARING_MODE_SHARED
            99 AAUDIO_SESSION_ID_NONE
            AAUDIO_INPUT_PRESET_GENERIC false
            PRIVACY_SENSITIVE_DEFAULT (-5).

(** The caller's slot, holding a null handle before the call. *)
Definition emptySlot : option (option AudioStream) := Some None.

(** The builder after the sharing-mode step, given the exclusive policy. *)
Definition correctedBuilder (exclusivePolicy : aaudio_policy_t) (b : AudioStreamBuilder)
  : AudioStreamBuilder :=
  if (mSharingMode b =? AAUDIO_SHARING_MODE_EXCLUSIVE)
     && (exclusivePolicy =? AAUDIO_POLICY_NEVER)
  then setSharingMode AAUDIO_SHARING_MODE_SHARED b else b.

(** The provider queries of lines 147-168, the most recent first. *)
Definition policyQueries (env : Env) : list Event :=
  EvGetMmapPolicyInfo EXCLUSIVE ::
  (if AudioGlobal_getMMapPolicy env =? AAUDIO_UNSPECIFIED
   then [EvGetMmapPolicyInfo DEFAULT] else []).

(** The two resolved policies as values. *)
Definition generalPolicy (env : Env) : aaudio_policy_t :=
  resolvePolicy_spec (AudioGlobal_getMMapPolicy env) (getMmapPolicyInfo env DEFAULT).

Definition exclusivePolicy (env : Env) : aaudio_policy_t :=
  resolvePolicy_spec AAUDIO_UNSPECIFIED (getMmapPolicyInfo env EXCLUSIVE).

(** The builder after the sharing-mode and privacy steps: the object every
    [open] call receives. *)
Definition preparedBuilder (env : Env) (b : AudioStreamBuilder) : AudioStreamBuilder :=
  setPrivacySensitive
    (privacyFromRequest (mPrivacySensitiveReq b) (mInputPreset b))
    (correctedBuilder (exclusivePolicy env) b).

(** ** Log texts *)

(** [AAudio_convertSharingModeToShortText] and
    [AAudio_convertDirectionToText], used by [logParameters]. *)
Definition AAudio_convertSharingModeToShortText (sharingMode : aaudio_sharing_mode_t)
  : string :=
  if sharingMode =? AAUDIO_SHARING_MODE_EXCLUSIVE then "EX"%string
  else if sharingMode =? AAUDIO_SHARING_MODE_SHARED then "SH"%string
  else "?!"%string.

Definition AAudio_convertDirectionToText (direction : aaudio_direction_t) : string :=
  if direction =? AAUDIO_DIRECTION_OUTPUT then "OUTPUT"%string
  else if direction =? AAUDIO_DIRECTION_INPUT then "INPUT"%string
  else "?!"%string.

(** ** Ownership hand-off *)

Module Ownership.

(** Modelled from the spec: the reference count of a stream object
    ([android::RefBase] and [android::sp] are not among the sources).  The
    count is incremented and decremented explicitly, and the object is
    destroyed when the count reaches zero, whichever holder released last.
    A stream object is viewed here as its count and whether it has been
    destroyed. *)
Record RefBase : Type := mkRef {
  strongCount : Z;
  destroyed : bool
}.

Definition incStrong (o : RefBase) : RefBase :=
  mkRef (strongCount o + 1) (destroyed o).

(** The release that finds the count at one destroys the object. *)
Definition decStrong (o : RefBase) : RefBase :=
  mkRef (strongCount o - 1) (destroyed o || (strongCount o =? 1)).

(** [startUsingStream]: [audioStream] is the smart pointer, [None] when
    null; the result is the state of the object whose raw pointer is handed
    out, [None] when a null pointer was dereferenced. *)
Definition startUsingStream (audioStream : option RefBase) : option RefBase :=
  match audioStream with
  | None => None
  | Some o => Some (incStrong o)
  end.

(** [stopUsingStream]: a smart pointer is built from the raw pointer (one
    more reference), [decStrong] is called on it, and the smart pointer ends
    its life at the end of the function (one reference less). *)
Definition stopUsingStream (stream : option RefBase) : option RefBase :=
  match stream with
  | None => None
  | Some o =>
      let spAudioStream := incStrong o in
      let spAudioStream := decStrong spAudioStream in
      Some (decStrong spAudioStream)
  end.

End Ownership.

(** ** Further selections of calls and sample inputs *)

Definition isPolicyQuery (e : Event) : bool :=
  match e with
  | EvGetMmapPolicyInfo _ => true
  | _ => false
  end.

(** The calls that register and hand over an opened stream. *)
Definition isHandoff (e : Event) : bool :=
  match e with
  | EvRegisterPlayerBase _ | EvLogOpenActual _ | EvIncStrong _ => true
  | _ => false
  end.

(** A request whose direction is neither input nor output. *)
Definition sidewaysRequest : AudioStreamBuilder :=
  mkBuilder 7 AAUDIO_SHARING_MODE_SHARED
            AAUDIO_PERFORMANCE_MODE_LOW_LATENCY AAUDIO_SESSION_ID_NONE
            AAUDIO_INPUT_PRESET_CAMCORDER false
            PRIVACY_SENSITIVE_DEFAULT AAUDIO_UNSPECIFIED.

(** * Properties *)

Ltac split_if :=
  match goal with
  | |- context [if ?c then _ else _] => destruct c eqn:?
  end.

Ltac run_monad :=
  cbv [bind ret returning returnIf getThis getStreamPtr modifyThis emit storeStreamPtr fault
       newStream outcome finalState]; cbn [fst snd this streamPtr trace streamClass].

(** ** The reduction [getAAudioPolicy] *)

Lemma AudioMMapPolicy_eqb_eq (a b : AudioMMapPolicy) :
  AudioMMapPolicy_eqb a b = true <-> a = b.
Proof.
  destruct a, b; simpl; split; intro H; try reflexivity; discriminate H.
Qed.

Lemma differsFromFirst_false (d : AudioMMapPolicy) (rest : list AudioMMapPolicyInfo) :
  differsFromFirst d rest = false <-> (forall i, In i rest -> mmapPolicy i = d).
Proof.
  induction rest as [|info rest IH]; simpl.
  - split; [intros _ i []| reflexivity].
  - destruct (AudioMMapPolicy_eqb (mmapPolicy info) d) eqn:E; simpl.
    + apply AudioMMapPolicy_eqb_eq in E. rewrite IH. split.
      * intros H i [<-|Hi]; [exact E | exact (H i Hi)].
      * intros H i Hi. apply H. right. exact Hi.
    + split; [discriminate|].
      intro H. specialize (H info (or_introl eq_refl)).
      apply AudioMMapPolicy_eqb_eq in H. congruence.
Qed.

Lemma getAAudioPolicy_agree (d : AudioMMapPolicy) (infos : list AudioMMapPolicyInfo) :
  infos <> [] -> (forall i, In i infos -> mmapPolicy i = d) ->
  getAAudioPolicy infos = aidl2legacy_aaudio_policy d.
Proof.
  destruct infos as [|info0 rest]; [congruence|]. intros _ H. simpl.
  assert (E0 : mmapPolicy info0 = d) by (apply H; left; reflexivity).
  rewrite E0.
  replace (differsFromFirst d rest) with false; [reflexivity|].
  symmetry. apply differsFromFirst_false. intros i Hi. apply H. right. exact Hi.
Qed.

Lemma getAAudioPolicy_mixed (infos : list AudioMMapPolicyInfo) (i j : AudioMMapPolicyInfo) :
  In i infos -> In j infos -> mmapPolicy i <> mmapPolicy j ->
  getAAudioPolicy infos = AAUDIO_POLICY_AUTO.
Proof.
  destruct infos as [|info0 rest]; [intros []|]. intros Hi Hj Hne. simpl.
  destruct (differsFromFirst (mmapPolicy info0) rest) eqn:E; [reflexivity|].
  exfalso. apply Hne.
  assert (H : forall k, In k (info0 :: rest) -> mmapPolicy k = mmapPolicy info0).
  { intros k [<-|Hk]; [reflexivity|].
    exact (proj1 (differsFromFirst_false _ _) E k Hk). }
  rewrite (H i Hi), (H j Hj). reflexivity.
Qed.

(** C5: [getAAudioPolicy] is a function of its argument that yields auto
    for the empty list, the common disposition for a non-empty list whose
    entries all carry the same one (never, auto and always as the codes
    [AAUDIO_POLICY_NEVER], [AAUDIO_POLICY_AUTO] and [AAUDIO_POLICY_ALWAYS],
    unspecified as [AAUDIO_UNSPECIFIED], four distinct codes), and auto as soon
    as two entries differ; in particular [never, never, always] reduces to
    auto. *)
Theorem getAAudioPolicy_reduction :
  getAAudioPolicy [] = AAUDIO_POLICY_AUTO
  /\ (forall (d : AudioMMapPolicy) (infos : list AudioMMapPolicyInfo),
        infos <> [] -> (forall i, In i infos -> mmapPolicy i = d) ->
        getAAudioPolicy infos
        = match d with
          | NEVER => AAUDIO_POLICY_NEVER
          | AUTO => AAUDIO_POLICY_AUTO
          | ALWAYS => AAUDIO_POLICY_ALWAYS
          | UNSPECIFIED => AAUDIO_UNSPECIFIED
          end)
  /\ (AAUDIO_POLICY_NEVER <> AAUDIO_POLICY_AUTO
      /\ AAUDIO_POLICY_NEVER <> AAUDIO_POLICY_ALWAYS
      /\ AAUDIO_POLICY_AUTO <> AAUDIO_POLICY_ALWAYS
      /\ AAUDIO_UNSPECIFIED <> AAUDIO_POLICY_NEVER
      /\ AAUDIO_UNSPECIFIED <> AAUDIO_POLICY_AUTO
      /\ AAUDIO_UNSPECIFIED <> AAUDIO_POLICY_ALWAYS)
  /\ (forall (infos : list AudioMMapPolicyInfo) (i j : AudioMMapPolicyInfo),
        In i infos -> In j infos -> mmapPolicy i <> mmapPolicy j ->
        getAAudioPolicy infos = AAUDIO_POLICY_AUTO)
  /\ getAAudioPolicy [mkPolicyInfo 1 NEVER; mkPolicyInfo 2 NEVER; mkPolicyInfo 3 ALWAYS]
     = AAUDIO_POLICY_AUTO.
Proof.
  split; [reflexivity|]. split.
  - intros d infos Hne Hall. rewrite (getAAudioPolicy_agree d infos Hne Hall).
    destruct d; reflexivity.
  - split; [repeat split; discriminate|].
    split; [exact getAAudioPolicy_mixed | reflexivity].
Qed.

Lemma getAAudioPolicy_reduction_witness :
  getAAudioPolicy [mkPolicyInfo 1 ALWAYS; mkPolicyInfo 2 ALWAYS] = AAUDIO_POLICY_ALWAYS
  /\ getAAudioPolicy [mkPolicyInfo 1 NEVER; mkPolicyInfo 2 NEVER] = AAUDIO_POLICY_NEVER
  /\ getAAudioPolicy [mkPolicyInfo 4 UNSPECIFIED] = AAUDIO_UNSPECIFIED
  /\ getAAudioPolicy [mkPolicyInfo 1 AUTO; mkPolicyInfo 2 NEVER; mkPolicyInfo 3 AUTO]
     = AAUDIO_POLICY_AUTO.
Proof.
  destruct getAAudioPolicy_reduction as (_ & Hagree & _ & Hmixed & _).
  split; [|split; [|split]].
  - apply (Hagree ALWAYS); [discriminate|].
    intros i [<-|[<-|[]]]; reflexivity.
  - apply (Hagree NEVER); [discriminate|].
    intros i [<-|[<-|[]]]; reflexivity.
  - apply (Hagree UNSPECIFIED); [discriminate|].
    intros i [<-|[]]; reflexivity.
  - apply (Hmixed _ (mkPolicyInfo 1 AUTO) (mkPolicyInfo 2 NEVER));
      simpl; [tauto | tauto | discriminate].
Defined.

(** ** The pre-check [validate] *)

Section Facts.

Variable env : Env.

Lemma validate_delegated_error (b : AudioStreamBuilder) :
  AAudioStreamParameters_validate env b <> AAUDIO_OK ->
  validate env b = AAudioStreamParameters_validate env b.
Proof.
  intro H. unfold validate.
  destruct (Z.eqb_spec (AAudioStreamParameters_validate env b) AAUDIO_OK); [contradiction|reflexivity].
Qed.

(** ** The steps of [build] in closed form *)

Lemma build_precheck_eq (s : State) :
  build_precheck env s =
  match streamPtr s with
  | None => (Returned AAUDIO_ERROR_NULL, s)
  | Some _ =>
      let s' := mkState (this s) (Some None) (trace s) in
      if validate env (this s) =? AAUDIO_OK then (Next tt, s')
      else (Returned (validate env (this s)), s')
  end.
Proof.
  unfold build_precheck. run_monad.
  destruct (streamPtr s); [|reflexivity].
  run_monad. destruct (validate env (this s) =? AAUDIO_OK); reflexivity.
Qed.

Lemma build_mmapPolicy_eq (s : State) :
  build_mmapPolicy env s =
  (Next (generalPolicy env),
   mkState (this s) (streamPtr s)
     ((if AudioGlobal_getMMapPolicy env =? AAUDIO_UNSPECIFIED
       then [EvGetMmapPolicyInfo DEFAULT] else []) ++ trace s)).
Proof.
  unfold build_mmapPolicy, generalPolicy, resolvePolicy_spec, providerPolicy,
    call_getMmapPolicyInfo, AAUDIO_MMAP_POLICY_DEFAULT.
  run_monad.
  destruct (AudioGlobal_getMMapPolicy env =? AAUDIO_UNSPECIFIED) eqn:E; run_monad; simpl.
  - destruct (fst (getMmapPolicyInfo env DEFAULT) =? NO_ERROR); run_monad.
    + destruct (getAAudioPolicy (snd (getMmapPolicyInfo env DEFAULT)) =? AAUDIO_UNSPECIFIED);
        reflexivity.
    + rewrite E. reflexivity.
  - rewrite E. destruct s; reflexivity.
Qed.

Lemma build_mmapExclusivePolicy_eq (s : State) :
  build_mmapExclusivePolicy env s =
  (Next (exclusivePolicy env),
   mkState (this s) (streamPtr s) (EvGetMmapPolicyInfo EXCLUSIVE :: trace s)).
Proof.
  unfold build_mmapExclusivePolicy, exclusivePolicy, resolvePolicy_spec, providerPolicy,
    call_getMmapPolicyInfo, AAUDIO_MMAP_EXCLUSIVE_POLICY_DEFAULT.
  run_monad. simpl.
  destruct (fst (getMmapPolicyInfo env EXCLUSIVE) =? NO_ERROR); [|reflexivity].
  destruct (getAAudioPolicy (snd (getMmapPolicyInfo env EXCLUSIVE)) =? AAUDIO_UNSPECIFIED);
    reflexivity.
Qed.

Lemma build_sharingMode_eq (pe : aaudio_policy_t) (s : State) :
  build_sharingMode pe s =
  (Next (mSharingMode (correctedBuilder pe (this s))),
   mkState (correctedBuilder pe (this s)) (streamPtr s) (trace s)).
Proof.
  unfold build_sharingMode, correctedBuilder. run_monad.
  destruct ((mSharingMode (this s) =? AAUDIO_SHARING_MODE_EXCLUSIVE)
            && (pe =? AAUDIO_POLICY_NEVER)); run_monad; [reflexivity|].
  destruct s; reflexivity.
Qed.

Lemma build_allowPaths_eq (p : aaudio_policy_t) (s : State) :
  build_allowPaths p s =
  let allowMMap := allowFastPath_spec p (mPerformanceMode (this s)) (mSessionId (this s)) in
  let allowLegacy := allowCompatPath_spec p in
  if negb allowMMap && negb allowLegacy
  then (Returned AAUDIO_ERROR_ILLEGAL_ARGUMENT, s)
  else (Next (allowMMap, allowLegacy), s).
Proof.
  unfold build_allowPaths, allowFastPath_spec, allowCompatPath_spec. run_monad.
  destruct (p =? AAUDIO_POLICY_NEVER), (p =? AAUDIO_POLICY_ALWAYS),
    (mPerformanceMode (this s) =? AAUDIO_PERFORMANCE_MODE_LOW_LATENCY),
    (mSessionId (this s) =? AAUDIO_SESSION_ID_NONE); reflexivity.
Qed.

Lemma build_privacySensitive_eq (s : State) :
  build_privacySensitive s =
  (Next tt,
   mkState (setPrivacySensitive
              (privacyFromRequest (mPrivacySensitiveReq (this s)) (mInputPreset (this s)))
              (this s))
           (streamPtr s) (trace s)).
Proof.
  unfold build_privacySensitive, privacyFromRequest. run_monad. simpl.
  destruct (mPrivacySensitiveReq (this s) =? PRIVACY_SENSITIVE_DEFAULT).
  - destruct ((mInputPreset (this s) =? AAUDIO_INPUT_PRESET_CAMCORDER)
              || (mInputPreset (this s) =? AAUDIO_INPUT_PRESET_VOICE_COMMUNICATION));
      reflexivity.
  - destruct (mPrivacySensitiveReq (this s) =? PRIVACY_SENSITIVE_ENABLED); reflexivity.
Qed.

Lemma builder_createStream_eq (direction : aaudio_direction_t)
    (sharingMode : aaudio_sharing_mode_t) (tryMMap : bool)
    (stream : option AudioStream) (s : State) :
  builder_createStream direction sharingMode tryMMap stream s =
  match createStream_spec direction tryMMap with
  | Some c => (Next (AAUDIO_OK, Some (mkStream c)),
               mkState (this s) (streamPtr s) (EvNew c :: trace s))
  | None => (Next (AAUDIO_ERROR_ILLEGAL_ARGUMENT, stream), s)
  end.
Proof.
  unfold builder_createStream, createStream_spec.
  destruct (direction =? AAUDIO_DIRECTION_INPUT); [destruct tryMMap; reflexivity|].
  destruct (direction =? AAUDIO_DIRECTION_OUTPUT); [destruct tryMMap; reflexivity|].
  reflexivity.
Qed.

Lemma correctedBuilder_fields (pe : aaudio_policy_t) (b : AudioStreamBuilder) :
  mDirection (correctedBuilder pe b) = mDirection b
  /\ mPerformanceMode (correctedBuilder pe b) = mPerformanceMode b
  /\ mSessionId (correctedBuilder pe b) = mSessionId b
  /\ mInputPreset (correctedBuilder pe b) = mInputPreset b
  /\ mIsPrivacySensitive (correctedBuilder pe b) = mIsPrivacySensitive b
  /\ mPrivacySensitiveReq (correctedBuilder pe b) = mPrivacySensitiveReq b
  /\ mFramesPerDataCallback (correctedBuilder pe b) = mFramesPerDataCallback b.
Proof.
  unfold correctedBuilder.
  destruct ((mSharingMode b =? AAUDIO_SHARING_MODE_EXCLUSIVE) && (pe =? AAUDIO_POLICY_NEVER));
    repeat split; reflexivity.
Qed.

Lemma build_decide_eq (s : State) (slot : option AudioStream) :
  streamPtr s = Some slot ->
  validate env (this s) = AAUDIO_OK ->
  build_decide env s =
  let b' := correctedBuilder (exclusivePolicy env) (this s) in
  let s' := mkState b' (Some None) (policyQueries env ++ trace s) in
  let allowMMap :=
    allowFastPath_spec (generalPolicy env) (mPerformanceMode (this s)) (mSessionId (this s)) in
  let allowLegacy := allowCompatPath_spec (generalPolicy env) in
  if negb allowMMap && negb allowLegacy
  then (Returned AAUDIO_ERROR_ILLEGAL_ARGUMENT, s')
  else (Next (mSharingMode b', allowMMap, allowLegacy), s').
Proof.
  intros Hptr Hval. unfold build_decide.
  unfold bind at 1. rewrite build_precheck_eq, Hptr, Hval. cbn [Z.eqb AAUDIO_OK].
  cbv zeta. unfold bind at 1. rewrite build_mmapPolicy_eq.
  unfold bind at 1. rewrite build_mmapExclusivePolicy_eq.
  unfold bind at 1. rewrite build_sharingMode_eq.
  unfold bind at 1. rewrite build_allowPaths_eq.
  cbn [this streamPtr trace].
  destruct (correctedBuilder_fields (exclusivePolicy env) (this s))
    as (_ & -> & -> & _).
  unfold policyQueries. cbn [app].
  destruct (negb (allowFastPath_spec (generalPolicy env) (mPerformanceMode (this s))
                    (mSessionId (this s)))
            && negb (allowCompatPath_spec (generalPolicy env))); reflexivity.
Qed.

Lemma build_openStream_eq (sharingMode : aaudio_sharing_mode_t)
    (allowMMap allowLegacy : bool) (s : State) :
  build_openStream env sharingMode allowMMap allowLegacy s =
  let b := this s in
  match createStream_spec (mDirection b) allowMMap with
  | None => (Returned AAUDIO_ERROR_ILLEGAL_ARGUMENT, s)
  | Some c =>
      let r1 := AudioStream_open env c b in
      if r1 =? AAUDIO_OK then
        (Returned AAUDIO_OK,
         mkState b (Some (Some (mkStream c)))
           (EvIncStrong c :: EvLogOpenActual c :: EvRegisterPlayerBase c
            :: EvOpen c :: EvNew c :: trace s))
      else if isMMap (mkStream c) && allowLegacy then
        match createStream_spec (mDirection b) false with
        | None =>
            (Returned AAUDIO_ERROR_ILLEGAL_ARGUMENT,
             mkState b (streamPtr s) (EvOpen c :: EvNew c :: trace s))
        | Some c' =>
            let r2 := AudioStream_open env c' b in
            if r2 =? AAUDIO_OK then
              (Returned AAUDIO_OK,
               mkState b (Some (Some (mkStream c')))
                 (EvIncStrong c' :: EvLogOpenActual c' :: EvRegisterPlayerBase c'
                  :: EvOpen c' :: EvNew c' :: EvOpen c :: EvNew c :: trace s))
            else
              (Returned r2,
               mkState b (streamPtr s)
                 (EvOpen c' :: EvNew c' :: EvOpen c :: EvNew c :: trace s))
        end
      else
        (Returned r1, mkState b (streamPtr s) (EvOpen c :: EvNew c :: trace s))
  end.
Proof.
  unfold build_openStream. unfold bind at 1. unfold getThis at 1.
  unfold bind at 1. rewrite builder_createStream_eq. cbv zeta.
  destruct (createStream_spec (mDirection (this s)) allowMMap) as [c|] eqn:Ec;
    [|destruct s; reflexivity].
  cbn [fst snd Z.eqb AAUDIO_OK]. unfold open at 1. run_monad.
  destruct (AudioStream_open env c (this s) =? AAUDIO_OK) eqn:E1.
  - cbn [negb fst snd]. rewrite E1.
    unfold registerPlayerBase, logOpenActual, startUsingStream.
    run_monad. rewrite (proj1 (Z.eqb_eq _ _) E1). reflexivity.
  - cbn [negb]. destruct (isMMap (mkStream c) && allowLegacy).
    + rewrite builder_createStream_eq. cbn [this streamPtr trace].
      destruct (createStream_spec (mDirection (this s)) false) as [c'|].
      * cbn [fst snd Z.eqb AAUDIO_OK]. unfold open. run_monad.
        destruct (AudioStream_open env c' (this s) =? AAUDIO_OK) eqn:E2.
        -- unfold registerPlayerBase, logOpenActual, startUsingStream.
           run_monad. rewrite (proj1 (Z.eqb_eq _ _) E2). reflexivity.
        -- reflexivity.
      * reflexivity.
    + cbn [fst snd]. rewrite E1. reflexivity.
Qed.

(** ** [build] in closed form *)

Lemma build_null_eq (s : State) :
  streamPtr s = None -> build env s = (Returned AAUDIO_ERROR_NULL, s).
Proof.
  intro Hptr. unfold build, build_decide.
  unfold bind at 1. unfold bind at 1. rewrite build_precheck_eq, Hptr. reflexivity.
Qed.

Lemma build_invalid_eq (s : State) (slot : option AudioStream) :
  streamPtr s = Some slot ->
  validate env (this s) <> AAUDIO_OK ->
  build env s =
  (Returned (validate env (this s)), mkState (this s) (Some None) (trace s)).
Proof.
  intros Hptr Hval. unfold build, build_decide.
  unfold bind at 1. unfold bind at 1. rewrite build_precheck_eq, Hptr. cbv zeta.
  destruct (Z.eqb_spec (validate env (this s)) AAUDIO_OK); [contradiction|reflexivity].
Qed.

Lemma build_valid_eq (s : State) (slot : option AudioStream) :
  streamPtr s = Some slot ->
  validate env (this s) = AAUDIO_OK ->
  build env s =
  let allowMMap :=
    allowFastPath_spec (generalPolicy env) (mPerformanceMode (this s)) (mSessionId (this s)) in
  let allowLegacy := allowCompatPath_spec (generalPolicy env) in
  if negb allowMMap && negb allowLegacy
  then (Returned AAUDIO_ERROR_ILLEGAL_ARGUMENT,
        mkState (correctedBuilder (exclusivePolicy env) (this s)) (Some None)
                (policyQueries env ++ trace s))
  else build_openStream env
         (mSharingMode (correctedBuilder (exclusivePolicy env) (this s)))
         allowMMap allowLegacy
         (mkState (preparedBuilder env (this s)) (Some None)
                  (policyQueries env ++ trace s)).
Proof.
  intros Hptr Hval. unfold build. unfold bind at 1.
  rewrite (build_decide_eq s slot Hptr Hval). cbv zeta.
  destruct (negb (allowFastPath_spec (generalPolicy env) (mPerformanceMode (this s))
                    (mSessionId (this s)))
            && negb (allowCompatPath_spec (generalPolicy env))); [reflexivity|].
  unfold bind at 1. rewrite build_privacySensitive_eq.
  cbn [fst snd this streamPtr trace]. unfold preparedBuilder.
  destruct (correctedBuilder_fields (exclusivePolicy env) (this s))
    as (_ & _ & _ & -> & _ & -> & _).
  reflexivity.
Qed.

Lemma preparedBuilder_fields (b : AudioStreamBuilder) :
  mDirection (preparedBuilder env b) = mDirection b
  /\ mSharingMode (preparedBuilder env b)
     = effectiveSharingMode_spec (exclusivePolicy env) (mSharingMode b)
  /\ mIsPrivacySensitive (preparedBuilder env b)
     = privacyFromRequest (mPrivacySensitiveReq b) (mInputPreset b).
Proof.
  unfold preparedBuilder, correctedBuilder, effectiveSharingMode_spec.
  destruct ((mSharingMode b =? AAUDIO_SHARING_MODE_EXCLUSIVE)
            && (exclusivePolicy env =? AAUDIO_POLICY_NEVER));
    repeat split; reflexivity.
Qed.

End Facts.

(** ** Case analysis of a run of [build] *)

Ltac unfold_run :=
  unfold calls, buildResult, buildState, outcome, finalState in *.

(** Splits a run entered with a non-null [streamPtr] into its paths:
    rejected by [validate], no backend, unknown direction, first open
    succeeds, fallback (with its two outcomes), terminal open failure. *)
Ltac build_paths env b slot :=
  let Hv := fresh "Hvalid" in
  destruct (Z.eqb_spec (validate env b) AAUDIO_OK) as [Hv|Hv];
  [ rewrite (build_valid_eq env (enter b (Some slot)) slot eq_refl Hv) in *;
    cbv zeta in *; cbn [enter this streamPtr trace] in *;
    let Hback := fresh "Hbackend" in
    destruct (negb (allowFastPath_spec (generalPolicy env) (mPerformanceMode b)
                      (mSessionId b))
              && negb (allowCompatPath_spec (generalPolicy env))) eqn:Hback;
    [ | rewrite build_openStream_eq in *; cbv zeta in *;
        cbn [this streamPtr trace] in *;
        rewrite (proj1 (preparedBuilder_fields env b)) in *;
        let Hc := fresh "Hcreate" in
        let c := fresh "c" in
        destruct (createStream_spec (mDirection b)
                    (allowFastPath_spec (generalPolicy env) (mPerformanceMode b)
                       (mSessionId b))) as [c|] eqn:Hc;
        [ let Ho := fresh "Hopen" in
          destruct (Z.eqb_spec (AudioStream_open env c (preparedBuilder env b)) AAUDIO_OK)
            as [Ho|Ho];
          [ | let Hr := fresh "Hretry" in
              destruct (isMMap (mkStream c) && allowCompatPath_spec (generalPolicy env))
                eqn:Hr;
              [ let Hc' := fresh "Hcreate'" in
                let c' := fresh "c'" in
                destruct (createStream_spec (mDirection b) false) as [c'|] eqn:Hc';
                [ let Ho' := fresh "Hopen'" in
                  destruct (Z.eqb_spec (AudioStream_open env c' (preparedBuilder env b))
                              AAUDIO_OK) as [Ho'|Ho']
                | ]
              | ] ]
        | ] ]
  | rewrite (build_invalid_eq env (enter b (Some slot)) slot eq_refl Hv) in *;
    cbn [enter this streamPtr trace] in * ].

Lemma policyQueries_no_stream (env : Env) (c : StreamClass) :
  ~ In (EvNew c) (policyQueries env) /\ ~ In (EvOpen c) (policyQueries env).
Proof.
  unfold policyQueries.
  destruct (AudioGlobal_getMMapPolicy env =? AAUDIO_UNSPECIFIED); simpl;
    split; intros H; repeat (destruct H as [H|H]; try discriminate H); exact H.
Qed.

Lemma createStream_spec_compat (direction : aaudio_direction_t) (c : StreamClass) :
  createStream_spec direction false = Some c -> isMMap (mkStream c) = false.
Proof.
  unfold createStream_spec.
  destruct (direction =? AAUDIO_DIRECTION_INPUT); [intros [= <-]; reflexivity|].
  destruct (direction =? AAUDIO_DIRECTION_OUTPUT); [intros [= <-]; reflexivity|].
  discriminate.
Qed.

Lemma createStream_spec_isMMap (direction : aaudio_direction_t) (fastPath : bool)
    (c : StreamClass) :
  createStream_spec direction fastPath = Some c -> isMMap (mkStream c) = fastPath.
Proof.
  unfold createStream_spec.
  destruct (direction =? AAUDIO_DIRECTION_INPUT);
    [intros [= <-]; destruct fastPath; reflexivity|].
  destruct (direction =? AAUDIO_DIRECTION_OUTPUT);
    [intros [= <-]; destruct fastPath; reflexivity|].
  discriminate.
Qed.

Lemma firstCreated_In (t : list Event) (c : StreamClass) :
  firstCreated t = Some c -> In (EvNew c) t.
Proof.
  induction t as [|e t IH]; simpl; [discriminate|].
  destruct e; try (intro H; right; exact (IH H)).
  intros [= ->]. left. reflexivity.
Qed.

Lemma allowFastPath_gated (p : aaudio_policy_t) (perf : aaudio_performance_mode_t)
    (sid : aaudio_session_id_t) :
  perf <> AAUDIO_PERFORMANCE_MODE_LOW_LATENCY \/ sid <> AAUDIO_SESSION_ID_NONE ->
  allowFastPath_spec p perf sid = false.
Proof.
  unfold allowFastPath_spec. intros [H|H].
  - destruct (Z.eqb_spec perf AAUDIO_PERFORMANCE_MODE_LOW_LATENCY); [contradiction|].
    rewrite andb_false_r. reflexivity.
  - destruct (Z.eqb_spec sid AAUDIO_SESSION_ID_NONE); [contradiction|].
    rewrite andb_false_r. reflexivity.
Qed.

Lemma created_streams_not_mmap (env : Env) (b : AudioStreamBuilder)
    (ptr : option (option AudioStream)) (c : StreamClass) :
  allowFastPath_spec (generalPolicy env) (mPerformanceMode b) (mSessionId b) = false ->
  In (EvNew c) (calls env b ptr) -> isMMap (mkStream c) = false.
Proof.
  intros Hgate Hin. unfold calls in Hin. apply In_rev in Hin.
  destruct ptr as [slot|].
  - unfold_run. build_paths env b slot; rewrite ?Hgate in *; cbn [snd trace] in Hin.
    + rewrite app_nil_r in Hin. exfalso. exact (proj1 (policyQueries_no_stream env c) Hin).
    + rewrite app_nil_r in Hin.
      destruct Hin as [H|[H|[H|[H|[H|H]]]]]; try discriminate H.
      * injection H as <-. exact (createStream_spec_compat _ _ Hcreate).
      * exfalso. exact (proj1 (policyQueries_no_stream env c) H).
    + rewrite (createStream_spec_compat _ _ Hcreate) in Hretry. discriminate Hretry.
    + rewrite (createStream_spec_compat _ _ Hcreate) in Hretry. discriminate Hretry.
    + rewrite (createStream_spec_compat _ _ Hcreate) in Hretry. discriminate Hretry.
    + rewrite app_nil_r in Hin.
      destruct Hin as [H|[H|H]]; try discriminate H.
      * injection H as <-. exact (createStream_spec_compat _ _ Hcreate).
      * exfalso. exact (proj1 (policyQueries_no_stream env c) H).
    + rewrite app_nil_r in Hin. exfalso. exact (proj1 (policyQueries_no_stream env c) Hin).
    + destruct Hin.
  - unfold_run. rewrite (build_null_eq env (enter b None) eq_refl) in Hin. destruct Hin.
Qed.

Ltac compute_calls :=
  unfold policyQueries in *;
  repeat match goal with
  | |- context [if AudioGlobal_getMMapPolicy ?e =? AAUDIO_UNSPECIFIED then _ else _] =>
      destruct (AudioGlobal_getMMapPolicy e =? AAUDIO_UNSPECIFIED)
  | H : context [if AudioGlobal_getMMapPolicy ?e =? AAUDIO_UNSPECIFIED then _ else _] |- _ =>
      destruct (AudioGlobal_getMMapPolicy e =? AAUDIO_UNSPECIFIED)
  end;
  cbn [app rev firstCreated streamCalls filter isCreateOrOpen fst snd
       this streamPtr trace] in *.

Lemma createStream_spec_total (direction : aaudio_direction_t) (p q : bool) (c : StreamClass) :
  createStream_spec direction p = Some c -> createStream_spec direction q <> None.
Proof.
  unfold createStream_spec.
  destruct (direction =? AAUDIO_DIRECTION_INPUT); [discriminate|].
  destruct (direction =? AAUDIO_DIRECTION_OUTPUT); discriminate.
Qed.

(** ** Fallback protocol *)

(** C1: when the first stream [build] creates is a fast-path (MMAP) variant
    whose open fails and the legacy path is allowed, the creation and open
    calls of the run are exactly: create and open the fast-path stream,
    create and open the legacy stream of the same direction; nothing is
    opened a third time.  If the legacy open succeeds [build] returns
    [AAUDIO_OK] with a handle to the legacy stream, otherwise it returns that
    open's error and a null handle.  When the first stream is a legacy variant,
    or the legacy path is not allowed, the failed open is the only one and its
    error is the result. *)
Theorem single_fallback (env : Env) (b : AudioStreamBuilder)
    (slot : option AudioStream) (c : StreamClass) :
  firstCreated (calls env b (Some slot)) = Some c ->
  AudioStream_open env c (preparedBuilder env b) <> AAUDIO_OK ->
  (isMMap (mkStream c) = true ->
   allowCompatPath_spec (generalPolicy env) = true ->
   exists c',
     createStream_spec (mDirection b) false = Some c'
     /\ isMMap (mkStream c') = false
     /\ streamCalls (calls env b (Some slot)) = [EvNew c; EvOpen c; EvNew c'; EvOpen c']
     /\ (AudioStream_open env c' (preparedBuilder env b) = AAUDIO_OK ->
         buildResult env (enter b (Some slot)) = Some AAUDIO_OK
         /\ streamPtr (buildState env (enter b (Some slot))) = Some (Some (mkStream c')))
     /\ (AudioStream_open env c' (preparedBuilder env b) <> AAUDIO_OK ->
         buildResult env (enter b (Some slot))
         = Some (AudioStream_open env c' (preparedBuilder env b))
         /\ streamPtr (buildState env (enter b (Some slot))) = Some None))
  /\ (isMMap (mkStream c) = false \/ allowCompatPath_spec (generalPolicy env) = false ->
      streamCalls (calls env b (Some slot)) = [EvNew c; EvOpen c]
      /\ buildResult env (enter b (Some slot))
         = Some (AudioStream_open env c (preparedBuilder env b))
      /\ streamPtr (buildState env (enter b (Some slot))) = Some None).
Proof.
  intros Hfirst Hfail. unfold_run.
  build_paths env b slot; compute_calls; try discriminate Hfirst;
    injection Hfirst as ->; try contradiction.
  all: try (exfalso; exact (createStream_spec_total _ _ false _ Hcreate Hcreate')).
  all: apply andb_prop in Hretry || apply andb_false_iff in Hretry.
  all: split; [intros Hm Hl | intros Hno].
  all: try (destruct Hretry as [Hr|Hr]; rewrite Hr in *; discriminate).
  all: try (destruct Hretry as [Hm' Hl']; destruct Hno as [Hno|Hno];
            rewrite Hno in *; discriminate).
  all: try (exists c'; repeat split;
            try exact Hcreate'; try exact (createStream_spec_compat _ _ Hcreate');
            try (intros; congruence); try (intros; contradiction)).
  all: repeat split; reflexivity.
Qed.

Lemma single_fallback_witness :
  (buildResult (envOverride AAUDIO_POLICY_AUTO openMMapFails)
     (enter playbackRequest emptySlot) = Some AAUDIO_OK
   /\ streamPtr (buildState (envOverride AAUDIO_POLICY_AUTO openMMapFails)
                   (enter playbackRequest emptySlot))
      = Some (Some (mkStream AudioStreamTrack)))
  /\ buildResult (envOverride AAUDIO_POLICY_ALWAYS openFails)
       (enter playbackRequest emptySlot) = Some AAUDIO_ERROR_UNAVAILABLE
  /\ buildResult (envOverride AAUDIO_POLICY_NEVER openFails)
       (enter captureRequest emptySlot) = Some AAUDIO_ERROR_UNAVAILABLE.
Proof.
  split; [|split].
  - destruct (single_fallback (envOverride AAUDIO_POLICY_AUTO openMMapFails)
                playbackRequest None AudioStreamInternalPlay) as [Hfallback _].
    + reflexivity.
    + vm_compute. discriminate.
    + destruct (Hfallback eq_refl eq_refl) as (c' & Hc' & _ & _ & Hok & _).
      injection Hc' as <-. apply Hok. reflexivity.
  - destruct (single_fallback (envOverride AAUDIO_POLICY_ALWAYS openFails)
                playbackRequest None AudioStreamInternalPlay) as [_ Hterminal].
    + reflexivity.
    + vm_compute. discriminate.
    + destruct (Hterminal (or_intror eq_refl)) as (_ & Hres & _). exact Hres.
  - destruct (single_fallback (envOverride AAUDIO_POLICY_NEVER openFails)
                captureRequest None AudioStreamRecord) as [_ Hterminal].
    + reflexivity.
    + vm_compute. discriminate.
    + destruct (Hterminal (or_introl eq_refl)) as (_ & Hres & _). exact Hres.
Defined.

(** ** Policy resolution *)

(** C2 as stated puts the process-level override at the head of the
    precedence on the exclusive axis too.  That fails when the override is
    "always" and the provider is unreachable: the code resolves the exclusive
    policy to "never", and the exclusive request is downgraded to shared. *)
Lemma exclusive_axis_override_counterexample :
  AudioGlobal_getMMapPolicy (envOverride AAUDIO_POLICY_ALWAYS openOk) = AAUDIO_POLICY_ALWAYS
  /\ resolvePolicy_spec
       (AudioGlobal_getMMapPolicy (envOverride AAUDIO_POLICY_ALWAYS openOk))
       (getMmapPolicyInfo (envOverride AAUDIO_POLICY_ALWAYS openOk) EXCLUSIVE)
     = AAUDIO_POLICY_ALWAYS
  /\ outcome (build_mmapExclusivePolicy (envOverride AAUDIO_POLICY_ALWAYS openOk))
       (enter playbackRequest emptySlot) = Next AAUDIO_POLICY_NEVER
  /\ outcome (build_mmapExclusivePolicy (envOverride AAUDIO_POLICY_ALWAYS openOk))
       (enter playbackRequest emptySlot)
     <> Next (resolvePolicy_spec
                (AudioGlobal_getMMapPolicy (envOverride AAUDIO_POLICY_ALWAYS openOk))
                (getMmapPolicyInfo (envOverride AAUDIO_POLICY_ALWAYS openOk) EXCLUSIVE))
  /\ mSharingMode (this (buildState (envOverride AAUDIO_POLICY_ALWAYS openOk)
                           (enter playbackRequest emptySlot)))
     = AAUDIO_SHARING_MODE_SHARED.
Proof.
  repeat split; try reflexivity. vm_compute. discriminate.
Qed.

(** C2 (amended): the general policy is the process-level override if that
    is set, else the provider's reduced answer for the default axis (a failed
    query counting as unspecified), else never.  The exclusive policy has no
    override: it is the provider's reduced answer for the exclusive axis, else
    never, and it does not depend on the process-level setting. *)
Theorem policy_resolution (env : Env) (s : State) :
  outcome (build_mmapPolicy env) s
  = Next (resolvePolicy_spec (AudioGlobal_getMMapPolicy env) (getMmapPolicyInfo env DEFAULT))
  /\ (AudioGlobal_getMMapPolicy env <> AAUDIO_UNSPECIFIED ->
      outcome (build_mmapPolicy env) s = Next (AudioGlobal_getMMapPolicy env))
  /\ outcome (build_mmapExclusivePolicy env) s
     = Next (resolvePolicy_spec AAUDIO_UNSPECIFIED (getMmapPolicyInfo env EXCLUSIVE))
  /\ (forall override : aaudio_policy_t,
        outcome (build_mmapExclusivePolicy
                   (mkEnv override (getMmapPolicyInfo env)
                          (AAudioStreamParameters_validate env) (AudioStream_open env))) s
        = outcome (build_mmapExclusivePolicy env) s).
Proof.
  unfold outcome. rewrite build_mmapPolicy_eq, build_mmapExclusivePolicy_eq.
  cbn [fst]. repeat split.
  - intro Hset. unfold generalPolicy, resolvePolicy_spec.
    destruct (Z.eqb_spec (AudioGlobal_getMMapPolicy env) AAUDIO_UNSPECIFIED);
      [contradiction|reflexivity].
  - intro override. rewrite build_mmapExclusivePolicy_eq. reflexivity.
Qed.

Lemma policy_resolution_witness :
  outcome (build_mmapPolicy (envOverride AAUDIO_POLICY_ALWAYS openOk))
    (enter playbackRequest emptySlot) = Next AAUDIO_POLICY_ALWAYS
  /\ outcome (build_mmapPolicy (envProvider openOk))
       (enter playbackRequest emptySlot) = Next AAUDIO_POLICY_AUTO.
Proof.
  split.
  - apply (proj1 (proj2 (policy_resolution (envOverride AAUDIO_POLICY_ALWAYS openOk)
                           (enter playbackRequest emptySlot)))).
    vm_compute. discriminate.
  - exact (proj1 (policy_resolution (envProvider openOk) (enter playbackRequest emptySlot))).
Defined.

(** ** The pre-check *)

(** C9 as stated gives [AAUDIO_ERROR_OUT_OF_RANGE] to every request whose
    callback size is specified and out of range.  The request
    below also has an unknown performance mode, which is checked first. *)
Lemma validate_out_of_range_counterexample :
  mFramesPerDataCallback badRequest <> AAUDIO_UNSPECIFIED
  /\ mFramesPerDataCallback badRequest < 1
  /\ validate (envOverride AAUDIO_POLICY_AUTO openOk) badRequest
     = AAUDIO_ERROR_ILLEGAL_ARGUMENT
  /\ validate (envOverride AAUDIO_POLICY_AUTO openOk) badRequest
     <> AAUDIO_ERROR_OUT_OF_RANGE.
Proof.
  repeat split; try reflexivity; vm_compute; discriminate.
Qed.

(** C9 (amended): [validate] applies its checks in order and the first
    failure wins: the error of the delegated parameter check; else
    [AAUDIO_ERROR_ILLEGAL_ARGUMENT] when the performance mode is none of the
    three known values; else [AAUDIO_ERROR_OUT_OF_RANGE] when the callback size
    is specified and outside [1, 1048576]; else [AAUDIO_OK]. *)
Theorem validate_precedence (env : Env) (b : AudioStreamBuilder) :
  (AAudioStreamParameters_validate env b <> AAUDIO_OK ->
   validate env b = AAudioStreamParameters_validate env b)
  /\ (AAudioStreamParameters_validate env b = AAUDIO_OK ->
      (mPerformanceMode b <> AAUDIO_PERFORMANCE_MODE_NONE
       /\ mPerformanceMode b <> AAUDIO_PERFORMANCE_MODE_POWER_SAVING
       /\ mPerformanceMode b <> AAUDIO_PERFORMANCE_MODE_LOW_LATENCY ->
       validate env b = AAUDIO_ERROR_ILLEGAL_ARGUMENT)
      /\ (mPerformanceMode b = AAUDIO_PERFORMANCE_MODE_NONE
          \/ mPerformanceMode b = AAUDIO_PERFORMANCE_MODE_POWER_SAVING
          \/ mPerformanceMode b = AAUDIO_PERFORMANCE_MODE_LOW_LATENCY ->
          (mFramesPerDataCallback b <> AAUDIO_UNSPECIFIED ->
           mFramesPerDataCallback b < 1 \/ 1048576 < mFramesPerDataCallback b ->
           validate env b = AAUDIO_ERROR_OUT_OF_RANGE)
          /\ (mFramesPerDataCallback b = AAUDIO_UNSPECIFIED
              \/ 1 <= mFramesPerDataCallback b <= 1048576 ->
              validate env b = AAUDIO_OK))).
Proof.
  split; [apply validate_delegated_error|].
  intro Hbase. unfold validate. rewrite Hbase. cbn [Z.eqb AAUDIO_OK negb].
  unfold AAUDIO_PERFORMANCE_MODE_NONE, AAUDIO_PERFORMANCE_MODE_POWER_SAVING,
    AAUDIO_PERFORMANCE_MODE_LOW_LATENCY, AAUDIO_UNSPECIFIED,
    FRAMES_PER_DATA_CALLBACK_MIN, FRAMES_PER_DATA_CALLBACK_MAX.
  destruct (Z.eqb_spec (mPerformanceMode b) 10), (Z.eqb_spec (mPerformanceMode b) 11),
    (Z.eqb_spec (mPerformanceMode b) 12), (Z.eqb_spec (mFramesPerDataCallback b) 0),
    (Z.ltb_spec (mFramesPerDataCallback b) 1),
    (Z.gtb_spec (mFramesPerDataCallback b) (1024 * 1024));
    cbn [orb andb negb]; repeat split; intros; try reflexivity; exfalso; lia.
Qed.

Lemma validate_precedence_witness :
  validate (envOverride AAUDIO_POLICY_AUTO openOk)
    (mkBuilder AAUDIO_DIRECTION_OUTPUT AAUDIO_SHARING_MODE_SHARED
       AAUDIO_PERFORMANCE_MODE_LOW_LATENCY AAUDIO_SESSION_ID_NONE
       AAUDIO_INPUT_PRESET_GENERIC false PRIVACY_SENSITIVE_DEFAULT 1048577)
  = AAUDIO_ERROR_OUT_OF_RANGE
  /\ validate (envOverride AAUDIO_POLICY_AUTO openOk) badRequest
     = AAUDIO_ERROR_ILLEGAL_ARGUMENT
  /\ validate (envOverride AAUDIO_POLICY_AUTO openOk) playbackRequest = AAUDIO_OK.
Proof.
  split; [|split].
  - apply (validate_precedence (envOverride AAUDIO_POLICY_AUTO openOk)).
    + reflexivity.
    + right. right. reflexivity.
    + vm_compute. discriminate.
    + right. vm_compute. reflexivity.
  - apply (validate_precedence (envOverride AAUDIO_POLICY_AUTO openOk)).
    + reflexivity.
    + vm_compute. repeat split; discriminate.
  - apply (validate_precedence (envOverride AAUDIO_POLICY_AUTO openOk)).
    + reflexivity.
    + right. right. reflexivity.
    + left. reflexivity.
Defined.

(** ** Reaching the privacy step *)

Lemma build_decide_next (env : Env) (b : AudioStreamBuilder)
    (ptr : option (option AudioStream)) (d : aaudio_sharing_mode_t * bool * bool) :
  outcome (build_decide env) (enter b ptr) = Next d ->
  exists slot,
    ptr = Some slot
    /\ validate env b = AAUDIO_OK
    /\ negb (allowFastPath_spec (generalPolicy env) (mPerformanceMode b) (mSessionId b))
       && negb (allowCompatPath_spec (generalPolicy env)) = false.
Proof.
  unfold outcome. destruct ptr as [slot|].
  - destruct (Z.eqb_spec (validate env b) AAUDIO_OK) as [Hv|Hv].
    + rewrite (build_decide_eq env (enter b (Some slot)) slot eq_refl Hv).
      cbv zeta. cbn [enter this].
      destruct (negb (allowFastPath_spec (generalPolicy env) (mPerformanceMode b)
                        (mSessionId b))
                && negb (allowCompatPath_spec (generalPolicy env))) eqn:E.
      * discriminate.
      * intros _. exists slot. repeat split; assumption.
    + unfold build_decide. unfold bind at 1. rewrite build_precheck_eq.
      cbn [enter this streamPtr]. cbv zeta.
      destruct (Z.eqb_spec (validate env b) AAUDIO_OK); [contradiction|discriminate].
  - unfold build_decide. unfold bind at 1. rewrite build_precheck_eq. discriminate.
Qed.

(** The locals [allowMMap] and [allowLegacy] of the code are the two
    permissions of the decision engine, and the local [sharingMode] is the
    effective sharing mode. *)
Lemma build_decide_refines (env : Env) (b : AudioStreamBuilder)
    (ptr : option (option AudioStream)) (d : aaudio_sharing_mode_t * bool * bool) :
  outcome (build_decide env) (enter b ptr) = Next d ->
  d = (effectiveSharingMode_spec (exclusivePolicy env) (mSharingMode b),
       allowFastPath_spec (generalPolicy env) (mPerformanceMode b) (mSessionId b),
       allowCompatPath_spec (generalPolicy env)).
Proof.
  intro Hd. destruct (build_decide_next env b ptr d Hd) as (slot & -> & Hv & Hback).
  unfold outcome in Hd.
  rewrite (build_decide_eq env (enter b (Some slot)) slot eq_refl Hv) in Hd.
  cbv zeta in Hd. cbn [enter this] in Hd. rewrite Hback in Hd. cbn [fst] in Hd.
  injection Hd as <-.
  rewrite <- (proj1 (proj2 (preparedBuilder_fields env b))). reflexivity.
Qed.

Lemma build_final_builder (env : Env) (b : AudioStreamBuilder)
    (ptr : option (option AudioStream)) (d : aaudio_sharing_mode_t * bool * bool) :
  outcome (build_decide env) (enter b ptr) = Next d ->
  this (buildState env (enter b ptr)) = preparedBuilder env b.
Proof.
  intro Hd. destruct (build_decide_next env b ptr d Hd) as (slot & -> & Hv & Hback).
  clear Hd. unfold_run. build_paths env b slot; try reflexivity; try discriminate Hback.
  contradiction.
Qed.

(** ** No backend *)

(** C3 as stated asks for a code distinct from
    [AAUDIO_ERROR_ILLEGAL_ARGUMENT], produced by this condition alone.  With
    the override "always" and no low-latency request both paths are closed and
    [build] returns [AAUDIO_ERROR_ILLEGAL_ARGUMENT], the code a request with an
    unknown performance mode gets as well. *)
Lemma no_backend_code_counterexample :
  validate (envOverride AAUDIO_POLICY_ALWAYS openOk) plainRequest = AAUDIO_OK
  /\ allowFastPath_spec (generalPolicy (envOverride AAUDIO_POLICY_ALWAYS openOk))
       (mPerformanceMode plainRequest) (mSessionId plainRequest) = false
  /\ allowCompatPath_spec (generalPolicy (envOverride AAUDIO_POLICY_ALWAYS openOk)) = false
  /\ buildResult (envOverride AAUDIO_POLICY_ALWAYS openOk) (enter plainRequest emptySlot)
     = Some AAUDIO_ERROR_ILLEGAL_ARGUMENT
  /\ buildResult (envOverride AAUDIO_POLICY_AUTO openOk) (enter badRequest emptySlot)
     = Some AAUDIO_ERROR_ILLEGAL_ARGUMENT
  /\ ~ (exists noBackendAvailable : aaudio_result_t,
          noBackendAvailable <> AAUDIO_ERROR_ILLEGAL_ARGUMENT
          /\ buildResult (envOverride AAUDIO_POLICY_ALWAYS openOk)
               (enter plainRequest emptySlot) = Some noBackendAvailable).
Proof.
  repeat split; try reflexivity.
  intros (code & Hne & Hres). vm_compute in Hres. injection Hres as <-.
  apply Hne. reflexivity.
Qed.

(** C3 (amended): when a request passes the pre-check and, after the
    sharing-mode step and the performance-mode and session-id gating, neither
    path is allowed, [build] returns [AAUDIO_ERROR_ILLEGAL_ARGUMENT] (the code
    also used for bad enum values), leaves a null handle and creates no
    stream. *)
Theorem no_backend_result (env : Env) (b : AudioStreamBuilder) (slot : option AudioStream) :
  validate env b = AAUDIO_OK ->
  allowFastPath_spec (generalPolicy env) (mPerformanceMode b) (mSessionId b) = false ->
  allowCompatPath_spec (generalPolicy env) = false ->
  buildResult env (enter b (Some slot)) = Some AAUDIO_ERROR_ILLEGAL_ARGUMENT
  /\ streamPtr (buildState env (enter b (Some slot))) = Some None
  /\ streamCalls (calls env b (Some slot)) = [].
Proof.
  intros Hv Hfast Hcompat. unfold_run.
  rewrite (build_valid_eq env (enter b (Some slot)) slot eq_refl Hv).
  cbv zeta. cbn [enter this]. rewrite Hfast, Hcompat. cbn [negb andb].
  compute_calls; repeat split; reflexivity.
Qed.

Lemma no_backend_result_witness :
  buildResult (envOverride AAUDIO_POLICY_ALWAYS openOk) (enter plainRequest emptySlot)
  = Some AAUDIO_ERROR_ILLEGAL_ARGUMENT
  /\ streamPtr (buildState (envOverride AAUDIO_POLICY_ALWAYS openOk)
                  (enter plainRequest emptySlot)) = Some None
  /\ streamCalls (calls (envOverride AAUDIO_POLICY_ALWAYS openOk) plainRequest emptySlot) = [].
Proof.
  apply (no_backend_result (envOverride AAUDIO_POLICY_ALWAYS openOk) plainRequest None);
    reflexivity.
Defined.

(** ** Privacy inference *)

(** C4 as stated makes a playback request with an unspecified privacy
    request yield [false] whatever its preset.  The playback request
    below has the voice-communication preset and ends with the flag set. *)
Lemma privacy_playback_counterexample :
  mDirection playbackRequest = AAUDIO_DIRECTION_OUTPUT
  /\ mPrivacySensitiveReq playbackRequest = PRIVACY_SENSITIVE_DEFAULT
  /\ mInputPreset playbackRequest = AAUDIO_INPUT_PRESET_VOICE_COMMUNICATION
  /\ buildResult (envOverride AAUDIO_POLICY_NEVER openOk) (enter playbackRequest emptySlot)
     = Some AAUDIO_OK
  /\ inferPrivacy_spec (mDirection playbackRequest) (mPrivacySensitiveReq playbackRequest)
       (mInputPreset playbackRequest) = false
  /\ mIsPrivacySensitive
       (this (buildState (envOverride AAUDIO_POLICY_NEVER openOk)
                (enter playbackRequest emptySlot))) = true.
Proof.
  repeat split; reflexivity.
Qed.

(** C4 (amended): on every run of [build] that reaches the privacy step,
    an unspecified privacy request yields [true] exactly when the input preset
    is camcorder or voice-communication, whatever the direction (so also for a
    playback request); an enabled request yields [true] and a disabled request
    [false], whatever the preset. *)
Theorem privacy_inference (env : Env) (b : AudioStreamBuilder)
    (ptr : option (option AudioStream)) (d : aaudio_sharing_mode_t * bool * bool) :
  outcome (build_decide env) (enter b ptr) = Next d ->
  (mPrivacySensitiveReq b = PRIVACY_SENSITIVE_DEFAULT ->
   (mIsPrivacySensitive (this (buildState env (enter b ptr))) = true <->
    mInputPreset b = AAUDIO_INPUT_PRESET_CAMCORDER
    \/ mInputPreset b = AAUDIO_INPUT_PRESET_VOICE_COMMUNICATION))
  /\ (mPrivacySensitiveReq b = PRIVACY_SENSITIVE_ENABLED ->
      mIsPrivacySensitive (this (buildState env (enter b ptr))) = true)
  /\ (mPrivacySensitiveReq b = PRIVACY_SENSITIVE_DISABLED ->
      mIsPrivacySensitive (this (buildState env (enter b ptr))) = false).
Proof.
  intro Hd. rewrite (build_final_builder env b ptr d Hd).
  rewrite (proj2 (proj2 (preparedBuilder_fields env b))).
  unfold privacyFromRequest. split; [|split].
  - intros ->. cbn [Z.eqb PRIVACY_SENSITIVE_DEFAULT Pos.eqb]. split.
    + intro Hflag. apply orb_prop in Hflag.
      destruct Hflag as [Hp|Hp]; apply Z.eqb_eq in Hp; tauto.
    + intros [Hp|Hp]; rewrite Hp; reflexivity.
  - intros ->. reflexivity.
  - intros ->. reflexivity.
Qed.

Lemma privacy_inference_witness :
  mIsPrivacySensitive
    (this (buildState (envOverride AAUDIO_POLICY_NEVER openOk)
             (enter playbackRequest emptySlot))) = true
  /\ mIsPrivacySensitive
       (this (buildState (envOverride AAUDIO_POLICY_AUTO openOk)
                (enter plainRequest emptySlot))) = false.
Proof.
  split.
  - destruct (privacy_inference (envOverride AAUDIO_POLICY_NEVER openOk) playbackRequest
                emptySlot (AAUDIO_SHARING_MODE_SHARED, false, true) eq_refl)
      as (Hdefault & _ & _).
    apply (Hdefault eq_refl). right. reflexivity.
  - destruct (privacy_inference (envOverride AAUDIO_POLICY_AUTO openOk) plainRequest
                emptySlot (AAUDIO_SHARING_MODE_SHARED, false, true) eq_refl)
      as (_ & _ & Hdisabled).
    exact (Hdisabled eq_refl).
Defined.

(** C10: on every run of [build] that reaches the privacy step, the step
    first stores [false] and then recomputes the flag from the privacy request
    and the input preset only: the flag after [build] is
    [privacyFromRequest] of those two fields, two runs with the same two
    fields end with the same flag whatever else differs, and the flag held
    before the call plays no part. *)
Theorem privacy_flag_recomputed (env1 env2 : Env) (b1 b2 : AudioStreamBuilder)
    (ptr1 ptr2 : option (option AudioStream))
    (d1 d2 : aaudio_sharing_mode_t * bool * bool) :
  outcome (build_decide env1) (enter b1 ptr1) = Next d1 ->
  outcome (build_decide env2) (enter b2 ptr2) = Next d2 ->
  mIsPrivacySensitive (this (buildState env1 (enter b1 ptr1)))
  = privacyFromRequest (mPrivacySensitiveReq b1) (mInputPreset b1)
  /\ (mPrivacySensitiveReq b1 = mPrivacySensitiveReq b2 ->
      mInputPreset b1 = mInputPreset b2 ->
      mIsPrivacySensitive (this (buildState env1 (enter b1 ptr1)))
      = mIsPrivacySensitive (this (buildState env2 (enter b2 ptr2))))
  /\ (forall s : State,
        build_privacySensitive s
        = build_privacySensitive
            (mkState (setPrivacySensitive false (this s)) (streamPtr s) (trace s))).
Proof.
  intros Hd1 Hd2.
  rewrite (build_final_builder env1 b1 ptr1 d1 Hd1).
  rewrite (build_final_builder env2 b2 ptr2 d2 Hd2).
  rewrite (proj2 (proj2 (preparedBuilder_fields env1 b1))).
  rewrite (proj2 (proj2 (preparedBuilder_fields env2 b2))).
  split; [reflexivity|]. split.
  - intros -> ->. reflexivity.
  - intro s. rewrite !build_privacySensitive_eq. reflexivity.
Qed.

Lemma privacy_flag_recomputed_witness :
  mIsPrivacySensitive
    (this (buildState (envOverride AAUDIO_POLICY_AUTO openOk)
             (enter plainRequest emptySlot)))
  = mIsPrivacySensitive
      (this (buildState (envProvider openFails)
               (enter (setPrivacySensitive false plainRequest) emptySlot))).
Proof.
  apply (privacy_flag_recomputed (envOverride AAUDIO_POLICY_AUTO openOk)
           (envProvider openFails) plainRequest (setPrivacySensitive false plainRequest)
           emptySlot emptySlot
           (AAUDIO_SHARING_MODE_SHARED, false, true)
           (AAUDIO_SHARING_MODE_SHARED, false, true));
    reflexivity.
Defined.

(** ** Sharing-mode downgrade *)

(** [build] resolves the exclusive policy, that is, it queries the provider
    for the exclusive axis, exactly when it is entered with a non-null
    [streamPtr] and the request passes [validate]. *)
Lemma exclusive_policy_resolved (env : Env) (b : AudioStreamBuilder)
    (ptr : option (option AudioStream)) :
  In (EvGetMmapPolicyInfo EXCLUSIVE) (calls env b ptr) <->
  (exists slot, ptr = Some slot) /\ validate env b = AAUDIO_OK.
Proof.
  unfold calls. rewrite <- In_rev. split.
  - intro Hin. destruct ptr as [slot|].
    + split; [exists slot; reflexivity|].
      destruct (Z.eqb_spec (validate env b) AAUDIO_OK) as [Hv|Hv]; [exact Hv|].
      unfold_run. rewrite (build_invalid_eq env (enter b (Some slot)) slot eq_refl Hv) in Hin.
      destruct Hin.
    + unfold_run. rewrite (build_null_eq env (enter b None) eq_refl) in Hin. destruct Hin.
  - intros [[slot ->] Hv]. unfold_run.
    build_paths env b slot; try contradiction; compute_calls; simpl; tauto.
Qed.

Lemma sharing_mode_downgrade_valid (env : Env) (b : AudioStreamBuilder)
    (slot : option AudioStream) :
  validate env b = AAUDIO_OK ->
  mSharingMode b = AAUDIO_SHARING_MODE_EXCLUSIVE ->
  exclusivePolicy env = AAUDIO_POLICY_NEVER ->
  mSharingMode (this (buildState env (enter b (Some slot)))) = AAUDIO_SHARING_MODE_SHARED
  /\ (forall d, outcome (build_decide env) (enter b (Some slot)) = Next d ->
        fst (fst d) = AAUDIO_SHARING_MODE_SHARED)
  /\ (exists r, buildResult env (enter b (Some slot)) = Some r).
Proof.
  intros Hv Hex Hpol.
  assert (Hb : mSharingMode (correctedBuilder (exclusivePolicy env) b)
               = AAUDIO_SHARING_MODE_SHARED).
  { unfold correctedBuilder. rewrite Hex, Hpol. reflexivity. }
  assert (Hp : mSharingMode (preparedBuilder env b) = AAUDIO_SHARING_MODE_SHARED).
  { exact Hb. }
  split; [|split].
  - unfold_run. build_paths env b slot; cbn [snd this]; try assumption. contradiction.
  - intros d Hd. rewrite (build_decide_refines env b (Some slot) d Hd). cbn [fst].
    unfold effectiveSharingMode_spec. rewrite Hex, Hpol. reflexivity.
  - unfold_run. build_paths env b slot; cbn [fst]; eexists; reflexivity.
Qed.

(** C6: for a request that asks for exclusive sharing and for which
    [build] resolves the exclusive policy (it gets as far as querying the
    provider for the exclusive axis) to never, the local sharing mode handed
    on to the later steps is shared and the builder holds shared when [build]
    returns, whatever the result code: no backend, unknown direction, open
    failure or success. *)
Theorem sharing_mode_downgrade (env : Env) (b : AudioStreamBuilder)
    (ptr : option (option AudioStream)) :
  mSharingMode b = AAUDIO_SHARING_MODE_EXCLUSIVE ->
  In (EvGetMmapPolicyInfo EXCLUSIVE) (calls env b ptr) ->
  outcome (build_mmapExclusivePolicy env) (enter b ptr) = Next AAUDIO_POLICY_NEVER ->
  mSharingMode (this (buildState env (enter b ptr))) = AAUDIO_SHARING_MODE_SHARED
  /\ (forall d, outcome (build_decide env) (enter b ptr) = Next d ->
        fst (fst d) = AAUDIO_SHARING_MODE_SHARED)
  /\ (exists r, buildResult env (enter b ptr) = Some r).
Proof.
  intros Hex Hquery Hpol.
  apply exclusive_policy_resolved in Hquery. destruct Hquery as [[slot ->] Hv].
  unfold outcome in Hpol. rewrite build_mmapExclusivePolicy_eq in Hpol.
  cbn [fst] in Hpol. injection Hpol as Hpol.
  exact (sharing_mode_downgrade_valid env b slot Hv Hex Hpol).
Qed.

Lemma sharing_mode_downgrade_witness :
  (mSharingMode (this (buildState (envProvider openOk) (enter playbackRequest emptySlot)))
   = AAUDIO_SHARING_MODE_SHARED
   /\ buildResult (envProvider openOk) (enter playbackRequest emptySlot) = Some AAUDIO_OK)
  /\ (mSharingMode (this (buildState (envOverride AAUDIO_POLICY_ALWAYS openFails)
                            (enter playbackRequest emptySlot)))
      = AAUDIO_SHARING_MODE_SHARED
      /\ buildResult (envOverride AAUDIO_POLICY_ALWAYS openFails)
           (enter playbackRequest emptySlot) = Some AAUDIO_ERROR_UNAVAILABLE).
Proof.
  split; (split; [|reflexivity]).
  - apply (sharing_mode_downgrade (envProvider openOk) playbackRequest emptySlot);
      [reflexivity | vm_compute; tauto | reflexivity].
  - apply (sharing_mode_downgrade (envOverride AAUDIO_POLICY_ALWAYS openFails)
             playbackRequest emptySlot);
      [reflexivity | vm_compute; tauto | reflexivity].
Defined.

(** ** Fast-path gating *)

(** C7: when the performance mode is not low-latency or a session id is
    requested, no fast-path (MMAP) stream is created by [build], first or
    later, whatever the resolved general policy; and the gating steps only
    narrow: [allowMMap] can hold after them only if the policy allowed it
    before, and [allowLegacy] is left as the policy set it. *)
Theorem fast_path_gating (env : Env) (b : AudioStreamBuilder)
    (ptr : option (option AudioStream)) :
  mPerformanceMode b <> AAUDIO_PERFORMANCE_MODE_LOW_LATENCY
  \/ mSessionId b <> AAUDIO_SESSION_ID_NONE ->
  (forall c, firstCreated (calls env b ptr) = Some c -> isMMap (mkStream c) = false)
  /\ (forall c, In (EvNew c) (calls env b ptr) -> isMMap (mkStream c) = false)
  /\ (forall (p : aaudio_policy_t) (s : State) (allowMMap allowLegacy : bool),
        outcome (build_allowPaths p) s = Next (allowMMap, allowLegacy) ->
        (allowMMap = true -> negb (p =? AAUDIO_POLICY_NEVER) = true)
        /\ allowLegacy = negb (p =? AAUDIO_POLICY_ALWAYS)).
Proof.
  intro Hgate.
  pose proof (allowFastPath_gated (generalPolicy env) _ _ Hgate) as Hfast.
  split; [|split].
  - intros c Hc. apply firstCreated_In in Hc.
    exact (created_streams_not_mmap env b ptr c Hfast Hc).
  - intros c Hc. exact (created_streams_not_mmap env b ptr c Hfast Hc).
  - intros p s allowMMap allowLegacy. unfold outcome.
    rewrite build_allowPaths_eq. cbv zeta.
    unfold allowFastPath_spec, allowCompatPath_spec.
    destruct (p =? AAUDIO_POLICY_NEVER), (p =? AAUDIO_POLICY_ALWAYS),
      (mPerformanceMode (this s) =? AAUDIO_PERFORMANCE_MODE_LOW_LATENCY),
      (mSessionId (this s) =? AAUDIO_SESSION_ID_NONE);
      cbn [negb andb fst]; intro H; try discriminate H.
    all: injection H as <- <-.
    all: split; [intro Ht|reflexivity].
    all: try discriminate Ht; reflexivity.
Qed.

Lemma fast_path_gating_witness :
  firstCreated (calls (envOverride AAUDIO_POLICY_AUTO openOk) plainRequest emptySlot)
  = Some AudioStreamTrack
  /\ isMMap (mkStream AudioStreamTrack) = false.
Proof.
  assert (Hgate : mPerformanceMode plainRequest <> AAUDIO_PERFORMANCE_MODE_LOW_LATENCY
                  \/ mSessionId plainRequest <> AAUDIO_SESSION_ID_NONE)
    by (left; vm_compute; discriminate).
  destruct (fast_path_gating (envOverride AAUDIO_POLICY_AUTO openOk) plainRequest
              emptySlot Hgate) as (Hfirst & _ & _).
  split; [reflexivity|].
  apply Hfirst. reflexivity.
Defined.

(** ** Early errors *)

(** C8 as stated leaves the request unchanged when the no-backend error is
    returned.  The exclusive request below is rejected for lack of a
    backend after its sharing mode has been rewritten to shared. *)
Lemma no_backend_request_changed_counterexample :
  validate (envOverride AAUDIO_POLICY_ALWAYS openOk) plainRequest = AAUDIO_OK
  /\ buildResult (envOverride AAUDIO_POLICY_ALWAYS openOk) (enter plainRequest emptySlot)
     = Some AAUDIO_ERROR_ILLEGAL_ARGUMENT
  /\ streamCalls (calls (envOverride AAUDIO_POLICY_ALWAYS openOk) plainRequest emptySlot) = []
  /\ mSharingMode plainRequest = AAUDIO_SHARING_MODE_EXCLUSIVE
  /\ mSharingMode (this (buildState (envOverride AAUDIO_POLICY_ALWAYS openOk)
                           (enter plainRequest emptySlot)))
     = AAUDIO_SHARING_MODE_SHARED
  /\ this (buildState (envOverride AAUDIO_POLICY_ALWAYS openOk)
             (enter plainRequest emptySlot)) <> plainRequest.
Proof.
  repeat split; try reflexivity. vm_compute. discriminate.
Qed.

(** C8 (amended): when [validate] rejects the request, [build] returns
    that error with the request unchanged and no collaborator called.  When
    [build] returns for lack of a backend, no stream has been created or
    opened and the privacy flag has not been written, but the sharing-mode
    step has already run: the request is the original with its sharing mode
    set to shared if it was exclusive and the exclusive policy is never, and
    the original itself otherwise. *)
Theorem early_error_effects (env : Env) (b : AudioStreamBuilder) (slot : option AudioStream) :
  (validate env b <> AAUDIO_OK ->
   buildResult env (enter b (Some slot)) = Some (validate env b)
   /\ this (buildState env (enter b (Some slot))) = b
   /\ calls env b (Some slot) = [])
  /\ (validate env b = AAUDIO_OK ->
      allowFastPath_spec (generalPolicy env) (mPerformanceMode b) (mSessionId b) = false ->
      allowCompatPath_spec (generalPolicy env) = false ->
      buildResult env (enter b (Some slot)) = Some AAUDIO_ERROR_ILLEGAL_ARGUMENT
      /\ streamCalls (calls env b (Some slot)) = []
      /\ mIsPrivacySensitive (this (buildState env (enter b (Some slot))))
         = mIsPrivacySensitive b
      /\ this (buildState env (enter b (Some slot)))
         = (if (mSharingMode b =? AAUDIO_SHARING_MODE_EXCLUSIVE)
               && (exclusivePolicy env =? AAUDIO_POLICY_NEVER)
            then setSharingMode AAUDIO_SHARING_MODE_SHARED b else b)).
Proof.
  split.
  - intro Hv. unfold_run.
    rewrite (build_invalid_eq env (enter b (Some slot)) slot eq_refl Hv).
    repeat split; reflexivity.
  - intros Hv Hfast Hcompat. unfold_run.
    rewrite (build_valid_eq env (enter b (Some slot)) slot eq_refl Hv).
    cbv zeta. cbn [enter this]. rewrite Hfast, Hcompat. cbn [negb andb].
    compute_calls; repeat split; try reflexivity;
      exact (proj1 (proj2 (proj2 (proj2 (proj2 (correctedBuilder_fields _ b)))))).
Qed.

Lemma early_error_effects_witness :
  (buildResult (envOverride AAUDIO_POLICY_AUTO openOk) (enter badRequest emptySlot)
   = Some AAUDIO_ERROR_ILLEGAL_ARGUMENT
   /\ this (buildState (envOverride AAUDIO_POLICY_AUTO openOk) (enter badRequest emptySlot))
      = badRequest)
  /\ this (buildState (envOverride AAUDIO_POLICY_ALWAYS openOk) (enter plainRequest emptySlot))
     = setSharingMode AAUDIO_SHARING_MODE_SHARED plainRequest.
Proof.
  split.
  - destruct (proj1 (early_error_effects (envOverride AAUDIO_POLICY_AUTO openOk)
                       badRequest None)) as (Hres & Hthis & _).
    + vm_compute. discriminate.
    + split; [exact Hres | exact Hthis].
  - destruct (proj2 (early_error_effects (envOverride AAUDIO_POLICY_ALWAYS openOk)
                       plainRequest None)) as (_ & _ & _ & Hthis).
    + reflexivity.
    + reflexivity.
    + reflexivity.
    + exact Hthis.
Defined.

(** ** Totality *)

(** X21: [build] never dereferences a null stream pointer: whatever the
    request, the argument and the answers of the collaborators, the run ends
    at a [return] with a result code. *)
Lemma build_returns (env : Env) (b : AudioStreamBuilder)
    (ptr : option (option AudioStream)) :
  exists r, outcome (build env) (enter b ptr) = Returned r.
Proof.
  unfold outcome. destruct ptr as [slot|].
  - build_paths env b slot; cbn [fst]; eexists; reflexivity.
  - rewrite (build_null_eq env (enter b None) eq_refl). eexists. reflexivity.
Qed.

(** * Further properties of [build] *)

Lemma illegal_argument_not_ok : AAUDIO_ERROR_ILLEGAL_ARGUMENT <> AAUDIO_OK.
Proof. discriminate. Qed.

Lemma rev_last_four {A : Type} (a b c d : A) (t : list A) :
  rev (a :: b :: c :: d :: t) = rev t ++ [d; c; b; a].
Proof.
  simpl. repeat rewrite <- app_assoc. reflexivity.
Qed.

Ltac in_cases H :=
  simpl in H;
  repeat (destruct H as [H|H]; [try discriminate H|]);
  try contradiction.

(** X1: entered with a null [streamPtr], [build] returns
    [AAUDIO_ERROR_NULL] at once: the builder is untouched and no collaborator
    is called, whatever the request and the environment. *)
Theorem build_null_streamPtr (env : Env) (b : AudioStreamBuilder) :
  buildResult env (enter b None) = Some AAUDIO_ERROR_NULL
  /\ buildState env (enter b None) = enter b None
  /\ calls env b None = [].
Proof.
  unfold_run. rewrite (build_null_eq env (enter b None) eq_refl).
  repeat split; reflexivity.
Qed.

(** X2: entered with a non-null [streamPtr], [build] leaves a non-null
    handle in the caller's slot exactly when it returns [AAUDIO_OK]; on every
    failure the slot holds null, even if it held a handle before the call. *)
Theorem handle_iff_ok (env : Env) (b : AudioStreamBuilder) (slot : option AudioStream) :
  (buildResult env (enter b (Some slot)) = Some AAUDIO_OK <->
   exists h, streamPtr (buildState env (enter b (Some slot))) = Some (Some h))
  /\ (buildResult env (enter b (Some slot)) <> Some AAUDIO_OK ->
      streamPtr (buildState env (enter b (Some slot))) = Some None).
Proof.
  pose proof illegal_argument_not_ok as Hill.
  unfold_run. build_paths env b slot; cbn [fst snd streamPtr].
  all: split; [split; [intro H | intros [h Hh]] | intro H].
  all: try reflexivity; try (eexists; reflexivity); try discriminate Hh;
    try congruence.
Qed.

(** X3: when the request passes [validate] and a backend is allowed but
    the direction is neither input nor output, [build] returns
    [AAUDIO_ERROR_ILLEGAL_ARGUMENT] without constructing or opening a stream
    and leaves a null handle; the sharing-mode and privacy steps have already
    been applied to the builder. *)
Theorem build_unknown_direction (env : Env) (b : AudioStreamBuilder)
    (slot : option AudioStream) (d : aaudio_sharing_mode_t * bool * bool) :
  outcome (build_decide env) (enter b (Some slot)) = Next d ->
  mDirection b <> AAUDIO_DIRECTION_INPUT ->
  mDirection b <> AAUDIO_DIRECTION_OUTPUT ->
  buildResult env (enter b (Some slot)) = Some AAUDIO_ERROR_ILLEGAL_ARGUMENT
  /\ streamCalls (calls env b (Some slot)) = []
  /\ streamPtr (buildState env (enter b (Some slot))) = Some None
  /\ this (buildState env (enter b (Some slot))) = preparedBuilder env b.
Proof.
  intros Hd Hin Hout.
  destruct (build_decide_next env b (Some slot) d Hd) as (slot' & _ & Hv & Hback).
  clear Hd slot'.
  assert (Hnone : forall p, createStream_spec (mDirection b) p = None).
  { intro p. unfold createStream_spec.
    destruct (Z.eqb_spec (mDirection b) AAUDIO_DIRECTION_INPUT); [contradiction|].
    destruct (Z.eqb_spec (mDirection b) AAUDIO_DIRECTION_OUTPUT); [contradiction|].
    reflexivity. }
  unfold_run. build_paths env b slot; try discriminate Hback; try contradiction;
    try (rewrite Hnone in Hcreate; discriminate Hcreate).
  compute_calls; repeat split; reflexivity.
Qed.

Lemma build_unknown_direction_witness :
  buildResult (envOverride AAUDIO_POLICY_AUTO openOk) (enter sidewaysRequest emptySlot)
  = Some AAUDIO_ERROR_ILLEGAL_ARGUMENT
  /\ mIsPrivacySensitive
       (this (buildState (envOverride AAUDIO_POLICY_AUTO openOk)
                (enter sidewaysRequest emptySlot))) = true.
Proof.
  destruct (build_unknown_direction (envOverride AAUDIO_POLICY_AUTO openOk)
              sidewaysRequest None (AAUDIO_SHARING_MODE_SHARED, true, true))
    as (Hres & _ & _ & Hthis).
  - reflexivity.
  - vm_compute. discriminate.
  - vm_compute. discriminate.
  - split; [exact Hres|]. exact (f_equal mIsPrivacySensitive Hthis).
Defined.

(** X4: the registration, the log of the actual configuration and the
    extra strong reference happen only on success, once each, in that order,
    right after the open that succeeded and on the stream whose handle is
    returned; a failing [build] performs none of them. *)
Theorem handoff_only_on_success (env : Env) (b : AudioStreamBuilder)
    (ptr : option (option AudioStream)) :
  (buildResult env (enter b ptr) = Some AAUDIO_OK ->
   exists c earlier,
     streamPtr (buildState env (enter b ptr)) = Some (Some (mkStream c))
     /\ AudioStream_open env c (preparedBuilder env b) = AAUDIO_OK
     /\ calls env b ptr
        = earlier ++ [EvOpen c; EvRegisterPlayerBase c; EvLogOpenActual c; EvIncStrong c]
     /\ filter isHandoff earlier = [])
  /\ (buildResult env (enter b ptr) <> Some AAUDIO_OK ->
      filter isHandoff (calls env b ptr) = []).
Proof.
  pose proof illegal_argument_not_ok as Hill.
  destruct ptr as [slot|].
  - unfold_run. build_paths env b slot; cbn [fst snd streamPtr trace].
    all: split; [intro H | intro H]; try congruence.
    all: try (compute_calls; reflexivity).
    + exists c. eexists. split; [reflexivity|]. split; [assumption|].
      split; [apply rev_last_four|]. compute_calls; reflexivity.
    + exists c'. eexists. split; [reflexivity|]. split; [assumption|].
      split; [apply rev_last_four|]. compute_calls; reflexivity.
  - unfold_run. rewrite (build_null_eq env (enter b None) eq_refl).
    cbn [fst snd trace enter]. split; [discriminate|reflexivity].
Qed.

Lemma handoff_only_on_success_witness :
  filter isHandoff
    (calls (envOverride AAUDIO_POLICY_AUTO openMMapFails) playbackRequest emptySlot)
  = [EvRegisterPlayerBase AudioStreamTrack; EvLogOpenActual AudioStreamTrack;
     EvIncStrong AudioStreamTrack]
  /\ filter isHandoff
       (calls (envOverride AAUDIO_POLICY_ALWAYS openFails) playbackRequest emptySlot) = [].
Proof.
  destruct (handoff_only_on_success (envOverride AAUDIO_POLICY_AUTO openMMapFails)
              playbackRequest emptySlot) as [Hok _].
  destruct (handoff_only_on_success (envOverride AAUDIO_POLICY_ALWAYS openFails)
              playbackRequest emptySlot) as [_ Hfail].
  split.
  - destruct (Hok eq_refl) as (c & earlier & _ & _ & _ & _). reflexivity.
  - apply Hfail. vm_compute. discriminate.
Defined.

(** X5: a run of [build] constructs and opens streams in one of three
    shapes only: nothing at all; one stream, opened once; or a fast-path
    stream followed by a legacy stream, each opened once.  So no run opens
    more than two streams and none is opened twice. *)
Theorem stream_calls_shape (env : Env) (b : AudioStreamBuilder)
    (ptr : option (option AudioStream)) :
  streamCalls (calls env b ptr) = []
  \/ (exists c, streamCalls (calls env b ptr) = [EvNew c; EvOpen c])
  \/ (exists c c',
        isMMap (mkStream c) = true /\ isMMap (mkStream c') = false
        /\ streamCalls (calls env b ptr) = [EvNew c; EvOpen c; EvNew c'; EvOpen c']).
Proof.
  destruct ptr as [slot|].
  - unfold_run. build_paths env b slot.
    all: try (left; compute_calls; reflexivity).
    all: try (right; left; exists c; compute_calls; reflexivity).
    all: try (exfalso; exact (createStream_spec_total _ _ false _ Hcreate Hcreate')).
    all: right; right; exists c, c'; apply andb_prop in Hretry;
      destruct Hretry as [Hm _];
      split; [exact Hm|]; split; [exact (createStream_spec_compat _ _ Hcreate')|];
      compute_calls; reflexivity.
  - left. unfold_run. rewrite (build_null_eq env (enter b None) eq_refl). reflexivity.
Qed.

(** X6: every stream [build] constructs is the class that the factory's
    table gives for the request's direction (capture classes for input,
    playback classes for output), also in the fallback; and a stream is opened
    only after it has been constructed. *)
Theorem created_class_matches_direction (env : Env) (b : AudioStreamBuilder)
    (ptr : option (option AudioStream)) (c : StreamClass) :
  (In (EvNew c) (calls env b ptr) ->
   createStream_spec (mDirection b) (isMMap (mkStream c)) = Some c)
  /\ (In (EvOpen c) (calls env b ptr) -> In (EvNew c) (calls env b ptr)).
Proof.
  destruct ptr as [slot|].
  - unfold_run. build_paths env b slot.
    all: try (exfalso; exact (createStream_spec_total _ _ false _ Hcreate Hcreate')).
    all: try pose proof (createStream_spec_isMMap _ _ _ Hcreate) as Hm.
    all: try pose proof (createStream_spec_isMMap _ _ _ Hcreate') as Hm'.
    all: compute_calls; split; intro H; in_cases H.
    all: try (injection H as <-); try (rewrite Hm; exact Hcreate);
      try (rewrite Hm'; exact Hcreate'); simpl; tauto.
  - unfold_run. rewrite (build_null_eq env (enter b None) eq_refl).
    split; intros [].
Qed.

Lemma created_class_matches_direction_witness :
  createStream_spec (mDirection captureRequest) (isMMap (mkStream AudioStreamRecord))
  = Some AudioStreamRecord.
Proof.
  apply (created_class_matches_direction (envOverride AAUDIO_POLICY_AUTO openMMapFails)
           captureRequest emptySlot AudioStreamRecord).
  vm_compute. tauto.
Defined.

(** X7: the provider is queried only by a run that passes the null check
    and [validate]; such a run queries the exclusive axis exactly once and the
    default axis once if the process-level setting is unspecified and not at
    all if it is set; the queries come before every other call. *)
Theorem provider_queries (env : Env) (b : AudioStreamBuilder)
    (ptr : option (option AudioStream)) :
  filter isPolicyQuery (calls env b ptr)
  = match ptr with
    | Some _ =>
        if validate env b =? AAUDIO_OK then
          (if AudioGlobal_getMMapPolicy env =? AAUDIO_UNSPECIFIED
           then [EvGetMmapPolicyInfo DEFAULT] else [])
          ++ [EvGetMmapPolicyInfo EXCLUSIVE]
        else []
    | None => []
    end
  /\ exists later,
       calls env b ptr = filter isPolicyQuery (calls env b ptr) ++ later
       /\ filter isPolicyQuery later = [].
Proof.
  destruct ptr as [slot|].
  - unfold_run. build_paths env b slot; compute_calls;
      (split; [reflexivity | eexists; split; reflexivity]).
  - unfold_run. rewrite (build_null_eq env (enter b None) eq_refl).
    split; [reflexivity | exists []; split; reflexivity].
Qed.

Lemma request_fields_kept (env : Env) (b b' : AudioStreamBuilder) :
  b' = b \/ b' = correctedBuilder (exclusivePolicy env) b \/ b' = preparedBuilder env b ->
  mDirection b' = mDirection b
  /\ mPerformanceMode b' = mPerformanceMode b
  /\ mSessionId b' = mSessionId b
  /\ mInputPreset b' = mInputPreset b
  /\ mPrivacySensitiveReq b' = mPrivacySensitiveReq b
  /\ mFramesPerDataCallback b' = mFramesPerDataCallback b
  /\ (mSharingMode b' = mSharingMode b
      \/ (mSharingMode b = AAUDIO_SHARING_MODE_EXCLUSIVE
          /\ mSharingMode b' = AAUDIO_SHARING_MODE_SHARED)).
Proof.
  intros [->|[->| ->]].
  - repeat split; try reflexivity. left. reflexivity.
  - unfold correctedBuilder.
    destruct (Z.eqb_spec (mSharingMode b) AAUDIO_SHARING_MODE_EXCLUSIVE) as [E|E];
      destruct (exclusivePolicy env =? AAUDIO_POLICY_NEVER); cbn [andb];
      repeat split; try reflexivity; try (left; reflexivity).
    right. split; [exact E | reflexivity].
  - unfold preparedBuilder, correctedBuilder.
    destruct (Z.eqb_spec (mSharingMode b) AAUDIO_SHARING_MODE_EXCLUSIVE) as [E|E];
      destruct (exclusivePolicy env =? AAUDIO_POLICY_NEVER); cbn [andb];
      repeat split; try reflexivity; try (left; reflexivity).
    right. split; [exact E | reflexivity].
Qed.

(** X8: whatever its outcome, [build] leaves the direction, performance
    mode, session id, input preset, privacy request and callback size of the
    builder as they were; the sharing mode is either unchanged or lowered from
    exclusive to shared, never raised. *)
Theorem build_preserves_request (env : Env) (b : AudioStreamBuilder)
    (ptr : option (option AudioStream)) :
  mDirection (this (buildState env (enter b ptr))) = mDirection b
  /\ mPerformanceMode (this (buildState env (enter b ptr))) = mPerformanceMode b
  /\ mSessionId (this (buildState env (enter b ptr))) = mSessionId b
  /\ mInputPreset (this (buildState env (enter b ptr))) = mInputPreset b
  /\ mPrivacySensitiveReq (this (buildState env (enter b ptr))) = mPrivacySensitiveReq b
  /\ mFramesPerDataCallback (this (buildState env (enter b ptr))) = mFramesPerDataCallback b
  /\ (mSharingMode (this (buildState env (enter b ptr))) = mSharingMode b
      \/ (mSharingMode b = AAUDIO_SHARING_MODE_EXCLUSIVE
          /\ mSharingMode (this (buildState env (enter b ptr)))
             = AAUDIO_SHARING_MODE_SHARED)).
Proof.
  apply (request_fields_kept env). destruct ptr as [slot|].
  - unfold_run. build_paths env b slot; cbn [snd this]; tauto.
  - unfold_run. rewrite (build_null_eq env (enter b None) eq_refl). left. reflexivity.
Qed.

Lemma general_policy_of_run (env : Env) (s : State) (p : aaudio_policy_t) :
  outcome (build_mmapPolicy env) s = Next p -> generalPolicy env = p.
Proof.
  unfold outcome. rewrite build_mmapPolicy_eq. cbn [fst]. intros [= H]. exact H.
Qed.

(** X9: when [build] resolves the general policy to always, it never
    constructs a legacy stream: every stream it creates is a fast-path one,
    a failed open is not retried on the legacy path, and a handle it returns is
    a fast-path stream. *)
Theorem policy_always_only_mmap (env : Env) (b : AudioStreamBuilder)
    (ptr : option (option AudioStream)) :
  outcome (build_mmapPolicy env) (enter b ptr) = Next AAUDIO_POLICY_ALWAYS ->
  (forall c, In (EvNew c) (calls env b ptr) -> isMMap (mkStream c) = true)
  /\ (forall h, streamPtr (buildState env (enter b ptr)) = Some (Some h) ->
        buildResult env (enter b ptr) = Some AAUDIO_OK /\ isMMap h = true)
  /\ (length (streamCalls (calls env b ptr)) <= 2)%nat.
Proof.
  intro Hp. apply general_policy_of_run in Hp.
  assert (Hcompat : allowCompatPath_spec (generalPolicy env) = false)
    by (rewrite Hp; reflexivity).
  destruct ptr as [slot|].
  - unfold_run. build_paths env b slot; rewrite ?Hcompat in *.
    all: try (rewrite andb_false_r in Hretry; discriminate Hretry).
    all: try (rewrite andb_true_r in Hbackend; apply negb_false_iff in Hbackend;
              rewrite Hbackend in Hcreate;
              pose proof (createStream_spec_isMMap _ _ _ Hcreate) as Hm).
    all: compute_calls; (split; [intros c0 H; in_cases H|split; [intros h H|simpl; lia]]).
    all: try (injection H as <-; exact Hm); try discriminate H.
    all: injection H as <-; split; [reflexivity | exact Hm].
  - unfold_run. rewrite (build_null_eq env (enter b None) eq_refl).
    cbn [fst snd trace streamPtr enter]. split; [intros c []|].
    split; [discriminate | simpl; lia].
Qed.

Lemma policy_always_only_mmap_witness :
  buildResult (envOverride AAUDIO_POLICY_ALWAYS openOk) (enter playbackRequest emptySlot)
  = Some AAUDIO_OK
  /\ isMMap (mkStream AudioStreamInternalPlay) = true.
Proof.
  destruct (policy_always_only_mmap (envOverride AAUDIO_POLICY_ALWAYS openOk)
              playbackRequest emptySlot eq_refl) as (_ & Hhandle & _).
  exact (Hhandle (mkStream AudioStreamInternalPlay) eq_refl).
Defined.

(** X10: when [build] resolves the general policy to never, it never
    constructs a fast-path stream: every stream it creates, and so every
    handle it returns, is a legacy one, and it opens at most one stream. *)
Theorem policy_never_only_legacy (env : Env) (b : AudioStreamBuilder)
    (ptr : option (option AudioStream)) :
  outcome (build_mmapPolicy env) (enter b ptr) = Next AAUDIO_POLICY_NEVER ->
  (forall c, In (EvNew c) (calls env b ptr) -> isMMap (mkStream c) = false)
  /\ (forall h, streamPtr (buildState env (enter b ptr)) = Some (Some h) ->
        buildResult env (enter b ptr) = Some AAUDIO_OK /\ isMMap h = false)
  /\ (length (streamCalls (calls env b ptr)) <= 2)%nat.
Proof.
  intro Hp. apply general_policy_of_run in Hp.
  assert (Hfast : allowFastPath_spec (generalPolicy env) (mPerformanceMode b) (mSessionId b)
                  = false) by (rewrite Hp; reflexivity).
  split; [intros c Hc; exact (created_streams_not_mmap env b ptr c Hfast Hc)|].
  destruct ptr as [slot|].
  - unfold_run. build_paths env b slot; rewrite ?Hfast in *.
    all: try pose proof (createStream_spec_compat _ _ Hcreate) as Hm.
    all: try (rewrite Hm in Hretry; discriminate Hretry).
    all: compute_calls; (split; [intros h H|simpl; lia]).
    all: try discriminate H.
    all: injection H as <-; split; [reflexivity | exact Hm].
  - unfold_run. rewrite (build_null_eq env (enter b None) eq_refl).
    cbn [fst snd trace streamPtr enter]. split; [discriminate | simpl; lia].
Qed.

Lemma policy_never_only_legacy_witness :
  buildResult (envOverride AAUDIO_POLICY_NEVER openOk) (enter playbackRequest emptySlot)
  = Some AAUDIO_OK
  /\ isMMap (mkStream AudioStreamTrack) = false.
Proof.
  destruct (policy_never_only_legacy (envOverride AAUDIO_POLICY_NEVER openOk)
              playbackRequest emptySlot eq_refl) as (_ & Hhandle & _).
  exact (Hhandle (mkStream AudioStreamTrack) eq_refl).
Defined.

Lemma validate_ok_inv (env : Env) (b : AudioStreamBuilder) :
  validate env b = AAUDIO_OK ->
  AAudioStreamParameters_validate env b = AAUDIO_OK
  /\ (mPerformanceMode b = AAUDIO_PERFORMANCE_MODE_NONE
      \/ mPerformanceMode b = AAUDIO_PERFORMANCE_MODE_POWER_SAVING
      \/ mPerformanceMode b = AAUDIO_PERFORMANCE_MODE_LOW_LATENCY)
  /\ (mFramesPerDataCallback b = AAUDIO_UNSPECIFIED
      \/ 1 <= mFramesPerDataCallback b <= 1048576).
Proof.
  unfold validate.
  destruct (Z.eqb_spec (AAudioStreamParameters_validate env b) AAUDIO_OK) as [Hb|Hb];
    cbn [negb]; [|intro H; contradiction].
  unfold AAUDIO_PERFORMANCE_MODE_NONE, AAUDIO_PERFORMANCE_MODE_POWER_SAVING,
    AAUDIO_PERFORMANCE_MODE_LOW_LATENCY, AAUDIO_UNSPECIFIED,
    FRAMES_PER_DATA_CALLBACK_MIN, FRAMES_PER_DATA_CALLBACK_MAX.
  destruct (Z.eqb_spec (mPerformanceMode b) 10), (Z.eqb_spec (mPerformanceMode b) 11),
    (Z.eqb_spec (mPerformanceMode b) 12), (Z.eqb_spec (mFramesPerDataCallback b) 0),
    (Z.ltb_spec (mFramesPerDataCallback b) 1),
    (Z.gtb_spec (mFramesPerDataCallback b) (1024 * 1024));
    cbn [orb andb negb]; intro Hok; try discriminate Hok;
    (split; [exact Hb|]); split; try tauto; lia.
Qed.

Lemma createStream_spec_direction (direction : aaudio_direction_t) (p : bool)
    (c : StreamClass) :
  createStream_spec direction p = Some c ->
  direction = AAUDIO_DIRECTION_INPUT \/ direction = AAUDIO_DIRECTION_OUTPUT.
Proof.
  unfold createStream_spec.
  destruct (Z.eqb_spec direction AAUDIO_DIRECTION_INPUT); [tauto|].
  destruct (Z.eqb_spec direction AAUDIO_DIRECTION_OUTPUT); [tauto|discriminate].
Qed.

(** X11: [build] returns [AAUDIO_OK] only for a call with a non-null
    [streamPtr] and a request that the delegated parameter check accepts,
    whose performance mode is one of the three known values, whose callback
    size is unspecified or within [1, 1048576], and whose direction is input
    or output. *)
Theorem build_ok_request (env : Env) (b : AudioStreamBuilder)
    (ptr : option (option AudioStream)) :
  buildResult env (enter b ptr) = Some AAUDIO_OK ->
  ptr <> None
  /\ AAudioStreamParameters_validate env b = AAUDIO_OK
  /\ (mPerformanceMode b = AAUDIO_PERFORMANCE_MODE_NONE
      \/ mPerformanceMode b = AAUDIO_PERFORMANCE_MODE_POWER_SAVING
      \/ mPerformanceMode b = AAUDIO_PERFORMANCE_MODE_LOW_LATENCY)
  /\ (mFramesPerDataCallback b = AAUDIO_UNSPECIFIED
      \/ 1 <= mFramesPerDataCallback b <= 1048576)
  /\ (mDirection b = AAUDIO_DIRECTION_INPUT \/ mDirection b = AAUDIO_DIRECTION_OUTPUT).
Proof.
  pose proof illegal_argument_not_ok as Hill.
  destruct ptr as [slot|].
  - unfold_run. build_paths env b slot; cbn [fst]; intro H; try congruence.
    all: split; [discriminate|].
    all: destruct (validate_ok_inv env b Hvalid) as (Hb & Hperf & Hframes).
    all: repeat split; try assumption.
    all: exact (createStream_spec_direction _ _ _ Hcreate).
  - unfold_run. rewrite (build_null_eq env (enter b None) eq_refl). discriminate.
Qed.

Lemma build_ok_request_witness :
  mDirection captureRequest = AAUDIO_DIRECTION_INPUT
  \/ mDirection captureRequest = AAUDIO_DIRECTION_OUTPUT.
Proof.
  apply (build_ok_request (envProvider openOk) captureRequest emptySlot).
  reflexivity.
Defined.

(** ** Further properties of the reduction *)

Lemma getAAudioPolicy_cases (l : list AudioMMapPolicyInfo) :
  l = []
  \/ (l <> [] /\ exists d, forall i, In i l -> mmapPolicy i = d)
  \/ (exists i j, In i l /\ In j l /\ mmapPolicy i <> mmapPolicy j).
Proof.
  destruct l as [|info0 rest]; [left; reflexivity|]. right.
  destruct (differsFromFirst (mmapPolicy info0) rest) eqn:E.
  - right. clear -E. induction rest as [|info rest IH]; [discriminate E|].
    simpl in E.
    destruct (AudioMMapPolicy_eqb (mmapPolicy info) (mmapPolicy info0)) eqn:Eq.
    + destruct (IH E) as (i & j & Hi & Hj & Hne).
      exists i, j. repeat split; try assumption.
      * destruct Hi as [<-|Hi]; [left; reflexivity | right; right; exact Hi].
      * destruct Hj as [<-|Hj]; [left; reflexivity | right; right; exact Hj].
    + exists info, info0. split; [right; left; reflexivity|].
      split; [left; reflexivity|].
      intro H. apply AudioMMapPolicy_eqb_eq in H. congruence.
  - left. split; [discriminate|]. exists (mmapPolicy info0).
    intros i [<-|Hi]; [reflexivity|].
    exact (proj1 (differsFromFirst_false _ _) E i Hi).
Qed.

Lemma getAAudioPolicy_same_set (l l' : list AudioMMapPolicyInfo) :
  (forall d, In d (map mmapPolicy l) <-> In d (map mmapPolicy l')) ->
  getAAudioPolicy l = getAAudioPolicy l'.
Proof.
  intro Hset.
  assert (Hto : forall i, In i l -> exists i', In i' l' /\ mmapPolicy i' = mmapPolicy i).
  { intros i Hi. apply (in_map mmapPolicy) in Hi. apply Hset in Hi.
    apply in_map_iff in Hi. destruct Hi as (i' & He & Hi'). exists i'. tauto. }
  assert (Hfrom : forall i', In i' l' -> exists i, In i l /\ mmapPolicy i = mmapPolicy i').
  { intros i' Hi'. apply (in_map mmapPolicy) in Hi'. apply Hset in Hi'.
    apply in_map_iff in Hi'. destruct Hi' as (i & He & Hi). exists i. tauto. }
  destruct (getAAudioPolicy_cases l) as [->|[(Hne & d & Hall)|(i & j & Hi & Hj & Hdiff)]].
  - destruct l' as [|i' l']; [reflexivity|].
    destruct (Hfrom i' (or_introl eq_refl)) as (i & [] & _).
  - rewrite (getAAudioPolicy_agree d l Hne Hall). symmetry.
    apply getAAudioPolicy_agree.
    + destruct l as [|i l]; [congruence|].
      destruct (Hto i (or_introl eq_refl)) as (i' & Hi' & _).
      intros ->. destruct Hi'.
    + intros i' Hi'. destruct (Hfrom i' Hi') as (i & Hi & <-). exact (Hall i Hi).
  - rewrite (getAAudioPolicy_mixed l i j Hi Hj Hdiff). symmetry.
    destruct (Hto i Hi) as (i' & Hi' & Ei). destruct (Hto j Hj) as (j' & Hj' & Ej).
    apply (getAAudioPolicy_mixed l' i' j' Hi' Hj'). congruence.
Qed.

(** X12: the reduction depends only on which dispositions occur in the
    list: two lists with the same set of dispositions reduce to the same
    policy.  In particular the order of the entries, the number of times a
    disposition is repeated and the devices the entries name do not matter. *)
Theorem getAAudioPolicy_set_invariant (l l' : list AudioMMapPolicyInfo) :
  ((forall d, In d (map mmapPolicy l) <-> In d (map mmapPolicy l')) ->
   getAAudioPolicy l = getAAudioPolicy l')
  /\ (Permutation l l' -> getAAudioPolicy l = getAAudioPolicy l')
  /\ (map mmapPolicy l = map mmapPolicy l' -> getAAudioPolicy l = getAAudioPolicy l').
Proof.
  split; [exact (getAAudioPolicy_same_set l l')|]. split.
  - intro Hperm. apply getAAudioPolicy_same_set. intro d.
    split; apply Permutation_in; apply Permutation_map;
      [exact Hperm | apply Permutation_sym; exact Hperm].
  - intro Hmap. apply getAAudioPolicy_same_set. intro d. rewrite Hmap. tauto.
Qed.

Lemma getAAudioPolicy_set_invariant_witness :
  getAAudioPolicy [mkPolicyInfo 1 ALWAYS; mkPolicyInfo 2 NEVER; mkPolicyInfo 3 ALWAYS]
  = getAAudioPolicy [mkPolicyInfo 9 NEVER; mkPolicyInfo 8 ALWAYS].
Proof.
  apply (proj1 (getAAudioPolicy_set_invariant
                  [mkPolicyInfo 1 ALWAYS; mkPolicyInfo 2 NEVER; mkPolicyInfo 3 ALWAYS]
                  [mkPolicyInfo 9 NEVER; mkPolicyInfo 8 ALWAYS])).
  intro d. simpl. tauto.
Defined.

Lemma getAAudioPolicy_range (l : list AudioMMapPolicyInfo) :
  getAAudioPolicy l = AAUDIO_UNSPECIFIED
  \/ getAAudioPolicy l = AAUDIO_POLICY_NEVER
  \/ getAAudioPolicy l = AAUDIO_POLICY_AUTO
  \/ getAAudioPolicy l = AAUDIO_POLICY_ALWAYS.
Proof.
  destruct l as [|info0 rest]; simpl; [tauto|].
  destruct (differsFromFirst (mmapPolicy info0) rest); [tauto|].
  destruct (mmapPolicy info0); simpl; tauto.
Qed.

(** X13: the policies [build] works with are never unspecified.  The
    exclusive policy is always one of never, auto and always; the general
    policy is the process-level setting itself when that is set, and one of
    never, auto and always when it is not. *)
Theorem resolved_policies_specified (env : Env) (s : State) :
  (exists pe,
     outcome (build_mmapExclusivePolicy env) s = Next pe
     /\ (pe = AAUDIO_POLICY_NEVER \/ pe = AAUDIO_POLICY_AUTO \/ pe = AAUDIO_POLICY_ALWAYS))
  /\ (exists p,
        outcome (build_mmapPolicy env) s = Next p
        /\ p <> AAUDIO_UNSPECIFIED
        /\ (AudioGlobal_getMMapPolicy env <> AAUDIO_UNSPECIFIED ->
            p = AudioGlobal_getMMapPolicy env)
        /\ (AudioGlobal_getMMapPolicy env = AAUDIO_UNSPECIFIED ->
            p = AAUDIO_POLICY_NEVER \/ p = AAUDIO_POLICY_AUTO
            \/ p = AAUDIO_POLICY_ALWAYS)).
Proof.
  unfold outcome. rewrite build_mmapPolicy_eq, build_mmapExclusivePolicy_eq. cbn [fst].
  assert (Hres : forall o q,
             resolvePolicy_spec o q <> AAUDIO_UNSPECIFIED
             /\ (o <> AAUDIO_UNSPECIFIED -> resolvePolicy_spec o q = o)
             /\ (o = AAUDIO_UNSPECIFIED ->
                 resolvePolicy_spec o q = AAUDIO_POLICY_NEVER
                 \/ resolvePolicy_spec o q = AAUDIO_POLICY_AUTO
                 \/ resolvePolicy_spec o q = AAUDIO_POLICY_ALWAYS)).
  { intros o q. unfold resolvePolicy_spec, providerPolicy.
    destruct (Z.eqb_spec o AAUDIO_UNSPECIFIED) as [Ho|Ho]; cbn [negb];
      [|split; [exact Ho|]; split; [reflexivity|contradiction]].
    destruct (fst q =? NO_ERROR).
    - destruct (Z.eqb_spec (getAAudioPolicy (snd q)) AAUDIO_UNSPECIFIED) as [Hq|Hq];
        cbn [negb].
      + split; [discriminate|]. split; [contradiction|]. intros _. left. reflexivity.
      + split; [exact Hq|]. split; [contradiction|]. intros _.
        destruct (getAAudioPolicy_range (snd q)) as [H|H]; [contradiction|exact H].
    - cbn [Z.eqb AAUDIO_UNSPECIFIED negb].
      split; [discriminate|]. split; [contradiction|]. intros _. left. reflexivity. }
  split.
  - exists (exclusivePolicy env). split; [reflexivity|]. unfold exclusivePolicy.
    exact (proj2 (proj2 (Hres AAUDIO_UNSPECIFIED (getMmapPolicyInfo env EXCLUSIVE)))
             eq_refl).
  - exists (generalPolicy env). split; [reflexivity|]. unfold generalPolicy.
    exact (Hres (AudioGlobal_getMMapPolicy env) (getMmapPolicyInfo env DEFAULT)).
Qed.

Lemma resolved_policies_specified_witness :
  outcome (build_mmapPolicy (envOverride AAUDIO_POLICY_ALWAYS openOk))
    (enter playbackRequest emptySlot) = Next AAUDIO_POLICY_ALWAYS
  /\ (outcome (build_mmapPolicy (envProvider openOk)) (enter playbackRequest emptySlot)
      = Next AAUDIO_POLICY_NEVER
      \/ outcome (build_mmapPolicy (envProvider openOk)) (enter playbackRequest emptySlot)
         = Next AAUDIO_POLICY_AUTO
      \/ outcome (build_mmapPolicy (envProvider openOk)) (enter playbackRequest emptySlot)
         = Next AAUDIO_POLICY_ALWAYS).
Proof.
  split.
  - destruct (resolved_policies_specified (envOverride AAUDIO_POLICY_ALWAYS openOk)
                (enter playbackRequest emptySlot)) as (_ & p & Hrun & _ & Hset & _).
    rewrite Hrun. f_equal. apply Hset. vm_compute. discriminate.
  - destruct (resolved_policies_specified (envProvider openOk)
                (enter playbackRequest emptySlot)) as (_ & p & Hrun & _ & _ & Hunset).
    rewrite Hrun.
    destruct (Hunset eq_refl) as [->|[->| ->]]; tauto.
Defined.

(** ** Composition of runs *)

Lemma preparedBuilder_idempotent (env : Env) (b : AudioStreamBuilder) :
  preparedBuilder env (preparedBuilder env b) = preparedBuilder env b.
Proof.
  unfold preparedBuilder, correctedBuilder.
  destruct ((mSharingMode b =? AAUDIO_SHARING_MODE_EXCLUSIVE)
            && (exclusivePolicy env =? AAUDIO_POLICY_NEVER)) eqn:E;
    cbn [setPrivacySensitive setSharingMode mSharingMode mDirection mPerformanceMode
         mSessionId mInputPreset mIsPrivacySensitive mPrivacySensitiveReq
         mFramesPerDataCallback].
  - cbn [Z.eqb AAUDIO_SHARING_MODE_SHARED AAUDIO_SHARING_MODE_EXCLUSIVE andb].
    reflexivity.
  - rewrite E. reflexivity.
Qed.

(** X14: the corrections [build] writes into the builder are stable: when
    a run that reached the privacy step is followed by a second run on the
    builder it left behind, in the same environment, and that run reaches the
    privacy step too, the second run leaves the builder exactly as it found
    it. *)
Theorem build_corrections_stable (env : Env) (b : AudioStreamBuilder)
    (ptr ptr' : option (option AudioStream))
    (d d' : aaudio_sharing_mode_t * bool * bool) :
  outcome (build_decide env) (enter b ptr) = Next d ->
  outcome (build_decide env) (enter (this (buildState env (enter b ptr))) ptr') = Next d' ->
  this (buildState env (enter (this (buildState env (enter b ptr))) ptr'))
  = this (buildState env (enter b ptr)).
Proof.
  intros Hd Hd'. rewrite (build_final_builder env _ ptr' d' Hd').
  rewrite (build_final_builder env b ptr d Hd).
  apply preparedBuilder_idempotent.
Qed.

Lemma build_corrections_stable_witness :
  this (buildState (envProvider openOk)
          (enter (this (buildState (envProvider openOk) (enter playbackRequest emptySlot)))
                 emptySlot))
  = this (buildState (envProvider openOk) (enter playbackRequest emptySlot)).
Proof.
  apply (build_corrections_stable (envProvider openOk) playbackRequest emptySlot emptySlot
           (AAUDIO_SHARING_MODE_SHARED, true, true)
           (AAUDIO_SHARING_MODE_SHARED, true, true));
    reflexivity.
Defined.

(** X15: [build] passes to [open] the builder as corrected by the
    sharing-mode and privacy steps, and no other: replacing the [open] of the
    stream classes by one that answers the same on that builder changes
    nothing in the run, whatever it answers on other builders (the request as
    the caller wrote it included). *)
Theorem open_receives_prepared_builder (env : Env)
    (open' : StreamClass -> AudioStreamBuilder -> aaudio_result_t)
    (b : AudioStreamBuilder) (ptr : option (option AudioStream)) :
  (forall c, open' c (preparedBuilder env b) = AudioStream_open env c (preparedBuilder env b)) ->
  build (mkEnv (AudioGlobal_getMMapPolicy env) (getMmapPolicyInfo env)
               (AAudioStreamParameters_validate env) open')
        (enter b ptr)
  = build env (enter b ptr).
Proof.
  intro Hopen.
  set (env' := mkEnv (AudioGlobal_getMMapPolicy env) (getMmapPolicyInfo env)
                     (AAudioStreamParameters_validate env) open').
  assert (Hv : validate env' b = validate env b) by reflexivity.
  destruct ptr as [slot|].
  - destruct (Z.eqb_spec (validate env b) AAUDIO_OK) as [Hok|Hbad].
    + rewrite (build_valid_eq env (enter b (Some slot)) slot eq_refl Hok).
      rewrite (build_valid_eq env' (enter b (Some slot)) slot eq_refl
                 (eq_trans Hv Hok)).
      cbv zeta. cbn [enter this trace].
      change (generalPolicy env') with (generalPolicy env).
      change (exclusivePolicy env') with (exclusivePolicy env).
      change (policyQueries env') with (policyQueries env).
      change (preparedBuilder env' b) with (preparedBuilder env b).
      destruct (negb (allowFastPath_spec (generalPolicy env) (mPerformanceMode b)
                        (mSessionId b))
                && negb (allowCompatPath_spec (generalPolicy env))); [reflexivity|].
      rewrite !build_openStream_eq. cbv zeta. cbn [this streamPtr trace].
      change (AudioStream_open env') with open'.
      destruct (createStream_spec (mDirection (preparedBuilder env b))
                  (allowFastPath_spec (generalPolicy env) (mPerformanceMode b)
                     (mSessionId b))) as [c|]; [|reflexivity].
      rewrite Hopen.
      destruct (createStream_spec (mDirection (preparedBuilder env b)) false) as [c'|];
        [rewrite Hopen|]; reflexivity.
    + rewrite (build_invalid_eq env (enter b (Some slot)) slot eq_refl Hbad).
      assert (Hbad' : validate env' (this (enter b (Some slot))) <> AAUDIO_OK)
        by exact Hbad.
      rewrite (build_invalid_eq env' (enter b (Some slot)) slot eq_refl Hbad').
      reflexivity.
  - rewrite (build_null_eq env (enter b None) eq_refl).
    rewrite (build_null_eq env' (enter b None) eq_refl). reflexivity.
Qed.

Lemma open_receives_prepared_builder_witness :
  build (mkEnv AAUDIO_UNSPECIFIED providerUp paramsOk
           (fun c builder =>
              if mSharingMode builder =? AAUDIO_SHARING_MODE_EXCLUSIVE
              then AAUDIO_ERROR_UNAVAILABLE else AAUDIO_OK))
        (enter playbackRequest emptySlot)
  = build (envProvider openOk) (enter playbackRequest emptySlot).
Proof.
  apply (open_receives_prepared_builder (envProvider openOk)
           (fun c builder =>
              if mSharingMode builder =? AAUDIO_SHARING_MODE_EXCLUSIVE
              then AAUDIO_ERROR_UNAVAILABLE else AAUDIO_OK)
           playbackRequest emptySlot).
  intro c. reflexivity.
Defined.

(** ** The stream factory *)

(** X16: [builder_createStream] ignores the sharing mode.  For the input
    and output directions it returns [AAUDIO_OK] and a newly constructed
    stream that is a fast-path one exactly when [tryMMap] is set; for any
    other direction it returns [AAUDIO_ERROR_ILLEGAL_ARGUMENT], constructs
    nothing and leaves the caller's stream reference as it was. *)
Theorem builder_createStream_dispatch (direction : aaudio_direction_t)
    (sharingMode sharingMode' : aaudio_sharing_mode_t) (tryMMap : bool)
    (stream : option AudioStream) (s : State) :
  builder_createStream direction sharingMode tryMMap stream s
  = builder_createStream direction sharingMode' tryMMap stream s
  /\ (direction = AAUDIO_DIRECTION_INPUT \/ direction = AAUDIO_DIRECTION_OUTPUT ->
      exists c,
        builder_createStream direction sharingMode tryMMap stream s
        = (Next (AAUDIO_OK, Some (mkStream c)),
           mkState (this s) (streamPtr s) (EvNew c :: trace s))
        /\ isMMap (mkStream c) = tryMMap
        /\ (c = AudioStreamInternalCapture \/ c = AudioStreamRecord <->
            direction = AAUDIO_DIRECTION_INPUT))
  /\ (direction <> AAUDIO_DIRECTION_INPUT -> direction <> AAUDIO_DIRECTION_OUTPUT ->
      builder_createStream direction sharingMode tryMMap stream s
      = (Next (AAUDIO_ERROR_ILLEGAL_ARGUMENT, stream), s)).
Proof.
  split; [reflexivity|]. rewrite builder_createStream_eq. unfold createStream_spec.
  split.
  - intros [->| ->]; cbn [Z.eqb AAUDIO_DIRECTION_INPUT AAUDIO_DIRECTION_OUTPUT Pos.eqb].
    + exists (if tryMMap then AudioStreamInternalCapture else AudioStreamRecord).
      split; [reflexivity|]. destruct tryMMap; (split; [reflexivity|]); tauto.
    + exists (if tryMMap then AudioStreamInternalPlay else AudioStreamTrack).
      split; [reflexivity|].
      destruct tryMMap; (split; [reflexivity|]);
        (split; [intros [H|H]; discriminate H | discriminate]).
  - intros Hin Hout.
    destruct (Z.eqb_spec direction AAUDIO_DIRECTION_INPUT); [contradiction|].
    destruct (Z.eqb_spec direction AAUDIO_DIRECTION_OUTPUT); [contradiction|].
    reflexivity.
Qed.

Lemma builder_createStream_dispatch_witness :
  outcome (builder_createStream AAUDIO_DIRECTION_INPUT AAUDIO_SHARING_MODE_SHARED true None)
    (enter captureRequest emptySlot)
  = Next (AAUDIO_OK, Some (mkStream AudioStreamInternalCapture))
  /\ outcome (builder_createStream 7 AAUDIO_SHARING_MODE_SHARED true None)
       (enter sidewaysRequest emptySlot)
     = Next (AAUDIO_ERROR_ILLEGAL_ARGUMENT, None).
Proof.
  split.
  - destruct (proj1 (proj2 (builder_createStream_dispatch AAUDIO_DIRECTION_INPUT
                              AAUDIO_SHARING_MODE_SHARED AAUDIO_SHARING_MODE_SHARED true
                              None (enter captureRequest emptySlot)))
                (or_introl eq_refl)) as (c & Hrun & _ & _).
    reflexivity.
  - unfold outcome.
    rewrite (proj2 (proj2 (builder_createStream_dispatch 7 AAUDIO_SHARING_MODE_SHARED
                             AAUDIO_SHARING_MODE_SHARED true None
                             (enter sidewaysRequest emptySlot)))).
    + reflexivity.
    + vm_compute. discriminate.
    + vm_compute. discriminate.
Defined.

(** ** Log texts *)

(** X17: the texts written by [logParameters] identify the value logged:
    the sharing mode is shown as "?!" exactly when it is neither exclusive nor
    shared, the direction exactly when it is neither output nor input, and two
    values that are shown alike, other than as "?!", are equal. *)
Theorem log_texts_identify_value :
  (forall m,
     AAudio_convertSharingModeToShortText m = "?!"%string <->
     m <> AAUDIO_SHARING_MODE_EXCLUSIVE /\ m <> AAUDIO_SHARING_MODE_SHARED)
  /\ (forall m m',
        AAudio_convertSharingModeToShortText m = AAudio_convertSharingModeToShortText m' ->
        AAudio_convertSharingModeToShortText m <> "?!"%string -> m = m')
  /\ (forall d,
        AAudio_convertDirectionToText d = "?!"%string <->
        d <> AAUDIO_DIRECTION_OUTPUT /\ d <> AAUDIO_DIRECTION_INPUT)
  /\ (forall d d',
        AAudio_convertDirectionToText d = AAudio_convertDirectionToText d' ->
        AAudio_convertDirectionToText d <> "?!"%string -> d = d').
Proof.
  unfold AAudio_convertSharingModeToShortText, AAudio_convertDirectionToText.
  repeat split.
  - destruct (Z.eqb_spec m AAUDIO_SHARING_MODE_EXCLUSIVE); [discriminate H|assumption].
  - destruct (Z.eqb_spec m AAUDIO_SHARING_MODE_EXCLUSIVE); [discriminate H|].
    destruct (Z.eqb_spec m AAUDIO_SHARING_MODE_SHARED); [discriminate H|assumption].
  - intros [H1 H2].
    destruct (Z.eqb_spec m AAUDIO_SHARING_MODE_EXCLUSIVE); [contradiction|].
    destruct (Z.eqb_spec m AAUDIO_SHARING_MODE_SHARED); [contradiction|reflexivity].
  - intros m m'.
    destruct (Z.eqb_spec m AAUDIO_SHARING_MODE_EXCLUSIVE),
      (Z.eqb_spec m' AAUDIO_SHARING_MODE_EXCLUSIVE),
      (Z.eqb_spec m AAUDIO_SHARING_MODE_SHARED),
      (Z.eqb_spec m' AAUDIO_SHARING_MODE_SHARED);
      intros He Hne; try discriminate He; try congruence.
  - destruct (Z.eqb_spec d AAUDIO_DIRECTION_OUTPUT); [discriminate H|assumption].
  - destruct (Z.eqb_spec d AAUDIO_DIRECTION_OUTPUT); [discriminate H|].
    destruct (Z.eqb_spec d AAUDIO_DIRECTION_INPUT); [discriminate H|assumption].
  - intros [H1 H2].
    destruct (Z.eqb_spec d AAUDIO_DIRECTION_OUTPUT); [contradiction|].
    destruct (Z.eqb_spec d AAUDIO_DIRECTION_INPUT); [contradiction|reflexivity].
  - intros d d'.
    destruct (Z.eqb_spec d AAUDIO_DIRECTION_OUTPUT),
      (Z.eqb_spec d' AAUDIO_DIRECTION_OUTPUT),
      (Z.eqb_spec d AAUDIO_DIRECTION_INPUT),
      (Z.eqb_spec d' AAUDIO_DIRECTION_INPUT);
      intros He Hne; try discriminate He; try congruence.
Qed.

Lemma log_texts_identify_value_witness :
  AAudio_convertSharingModeToShortText 5 = "?!"%string.
Proof.
  apply (proj1 log_texts_identify_value). split; vm_compute; discriminate.
Defined.

(** ** Ownership hand-off *)

(** X18: [stopUsingStream] undoes [startUsingStream]: on a stream that is
    held by at least one strong reference, taking the caller's reference and
    giving it back leaves the count as it was and does not destroy the
    stream. *)
Theorem stopUsingStream_undoes_start (o : Ownership.RefBase) :
  1 <= Ownership.strongCount o ->
  Ownership.stopUsingStream (Ownership.startUsingStream (Some o)) = Some o.
Proof.
  intro Hheld. destruct o as [n dead]. cbn in Hheld.
  unfold Ownership.stopUsingStream, Ownership.startUsingStream, Ownership.incStrong,
    Ownership.decStrong.
  cbn [Ownership.strongCount Ownership.destroyed].
  destruct (Z.eqb_spec (n + 1 + 1) 1); [lia|].
  destruct (Z.eqb_spec (n + 1 + 1 - 1) 1); [lia|].
  rewrite !orb_false_r. f_equal. f_equal. lia.
Qed.

Lemma stopUsingStream_undoes_start_witness :
  Ownership.stopUsingStream
    (Ownership.startUsingStream (Some (Ownership.mkRef 1 false)))
  = Some (Ownership.mkRef 1 false).
Proof.
  apply (stopUsingStream_undoes_start (Ownership.mkRef 1 false)). cbn. lia.
Defined.

(** X19: on a stream held by at least one strong reference,
    [stopUsingStream] releases exactly one reference, although it takes and
    drops a temporary one on the way: the stream is destroyed by the call
    exactly when the caller held the last reference.  So a stream created
    under one smart pointer, handed out by [startUsingStream] and let go by
    that smart pointer survives until [stopUsingStream], which destroys it. *)
Theorem stopUsingStream_releases_one (o : Ownership.RefBase) :
  1 <= Ownership.strongCount o ->
  Ownership.stopUsingStream (Some o) = Some (Ownership.decStrong o)
  /\ (Ownership.destroyed o = false ->
      (Ownership.destroyed (Ownership.decStrong o) = true <-> Ownership.strongCount o = 1))
  /\ (Ownership.destroyed o = false -> Ownership.strongCount o = 1 ->
      exists handed,
        Ownership.startUsingStream (Some o) = Some handed
        /\ Ownership.decStrong handed = o
        /\ Ownership.stopUsingStream (Some (Ownership.decStrong handed))
           = Some (Ownership.mkRef 0 true)).
Proof.
  intro Hheld. destruct o as [n dead]. cbn in Hheld.
  unfold Ownership.stopUsingStream, Ownership.startUsingStream, Ownership.incStrong,
    Ownership.decStrong.
  cbn [Ownership.strongCount Ownership.destroyed].
  split; [|split].
  - destruct (Z.eqb_spec (n + 1) 1); [lia|].
    rewrite orb_false_r. replace (n + 1 - 1) with n by lia. reflexivity.
  - intros ->. cbn [orb]. split; [apply Z.eqb_eq | apply Z.eqb_eq].
  - intros -> ->. eexists. split; [reflexivity|].
    cbn [Ownership.strongCount Ownership.destroyed]. split; reflexivity.
Qed.

Lemma stopUsingStream_releases_one_witness :
  Ownership.stopUsingStream (Some (Ownership.mkRef 2 false))
  = Some (Ownership.mkRef 1 false).
Proof.
  apply (stopUsingStream_releases_one (Ownership.mkRef 2 false)). cbn. lia.
Defined.

(** ** Where the result code comes from *)

(** X20: [build] makes up no result code of its own besides
    [AAUDIO_ERROR_NULL] and [AAUDIO_ERROR_ILLEGAL_ARGUMENT]: its result is
    [AAUDIO_ERROR_NULL] for a null [streamPtr], the error of [validate], the
    code [AAUDIO_ERROR_ILLEGAL_ARGUMENT], or what the [open] of a stream it
    opened answered on the corrected builder; in a run with a fallback it is
    the answer of the legacy stream, the error of the fast-path stream being
    dropped. *)
Theorem build_result_provenance (env : Env) (b : AudioStreamBuilder)
    (ptr : option (option AudioStream)) (r : aaudio_result_t) :
  buildResult env (enter b ptr) = Some r ->
  (ptr = None /\ r = AAUDIO_ERROR_NULL)
  \/ (r = validate env b /\ r <> AAUDIO_OK)
  \/ r = AAUDIO_ERROR_ILLEGAL_ARGUMENT
  \/ (exists c earlier later,
        calls env b ptr = earlier ++ EvOpen c :: later
        /\ streamCalls later = []
        /\ r = AudioStream_open env c (preparedBuilder env b)).
Proof.
  destruct ptr as [slot|].
  - unfold_run. build_paths env b slot; cbn [fst]; intros [= <-].
    all: try (right; right; left; reflexivity).
    all: try (right; left; split; [reflexivity | assumption]).
    + right. right. right. exists c. eexists. eexists.
      split; [|split; [|symmetry; exact Hopen]].
      * cbn [snd trace]. rewrite rev_last_four. reflexivity.
      * reflexivity.
    + right. right. right. exists c'. eexists. eexists.
      split; [|split; [|symmetry; exact Hopen']].
      * cbn [snd trace]. rewrite rev_last_four. reflexivity.
      * reflexivity.
    + right. right. right. exists c'. eexists. exists [].
      split; [|split; reflexivity]. cbn [snd trace rev]. reflexivity.
    + right. right. right. exists c. eexists. exists [].
      split; [|split; reflexivity]. cbn [snd trace rev]. reflexivity.
  - unfold_run. rewrite (build_null_eq env (enter b None) eq_refl).
    cbn [fst]. intros [= <-]. left. split; reflexivity.
Qed.

Lemma build_result_provenance_witness :
  exists c earlier later,
    calls (envOverride AAUDIO_POLICY_AUTO openMMapFails) playbackRequest emptySlot
    = earlier ++ EvOpen c :: later
    /\ streamCalls later = []
    /\ AAUDIO_OK
       = AudioStream_open (envOverride AAUDIO_POLICY_AUTO openMMapFails) c
           (preparedBuilder (envOverride AAUDIO_POLICY_AUTO openMMapFails) playbackRequest).
Proof.
  destruct (build_result_provenance (envOverride AAUDIO_POLICY_AUTO openMMapFails)
              playbackRequest emptySlot AAUDIO_OK eq_refl)
    as [[H _]|[[_ H]|[H|H]]].
  - discriminate H.
  - exfalso. apply H. reflexivity.
  - discriminate H.
  - exact H.
Defined.

Lemma handle_iff_ok_witness :
  (exists h,
     streamPtr (buildState (envProvider openOk)
                  (enter playbackRequest (Some (Some (mkStream AudioStreamRecord)))))
     = Some (Some h))
  /\ streamPtr (buildState (envOverride AAUDIO_POLICY_ALWAYS openFails)
                  (enter playbackRequest (Some (Some (mkStream AudioStreamRecord)))))
     = Some None.
Proof.
  split.
  - apply (proj1 (handle_iff_ok (envProvider openOk) playbackRequest
                    (Some (mkStream AudioStreamRecord)))).
    reflexivity.
  - apply (proj2 (handle_iff_ok (envOverride AAUDIO_POLICY_ALWAYS openFails) playbackRequest
                    (Some (mkStream AudioStreamRecord)))).
    vm_compute. discriminate.
Defined.
